(** * structure-builder: the tree parser and the materializer of
    [create_structure.py], embedded and verified.

    Python [str] values are lists of Unicode code points, so that [len],
    [count] and the regular expressions see one element per character
    (the box-drawing glyphs are three bytes each in UTF-8).  The file on
    disk is a list of bytes that [open(..., encoding='utf-8')] decodes. *)

From Stdlib Require Import ZArith NArith List Lia Bool.
From Stdlib Require Import Strings.String Strings.Ascii Strings.Byte.
From stdpp Require Import base option list gmap sets.

Local Open Scope N_scope.

(** ** Exceptions and the result monad *)

Inductive exn : Set :=
| IndexError
| FileNotFoundError
| UnicodeDecodeError
| FileExistsError
| NotADirectoryError
| IsADirectoryError.

Inductive result (A : Type) : Type :=
| Ok (a : A)
| Raise (e : exn).
Arguments Ok {A} a.
Arguments Raise {A} e.

#[global] Instance result_ret : MRet result := fun A a => Ok a.
#[global] Instance result_bind : MBind result := fun A B f m =>
  match m with
  | Ok a => f a
  | Raise e => Raise e
  end.

(** ** Python strings *)

Abbreviation char := N (only parsing).
Abbreviation str := (list N) (only parsing).

Definition ord (a : ascii) : char := N_of_ascii a.

Module Py.

(** [str.isspace] for one character, which is also the class [\s] of
    [re] on a [str] pattern (CPython's [Py_UNICODE_ISSPACE]). *)
Definition isspace (c : char) : bool :=
  ((9 <=? c) && (c <=? 13)) || ((28 <=? c) && (c <=? 32))
  || (c =? 0x85) || (c =? 0xA0) || (c =? 0x1680)
  || ((0x2000 <=? c) && (c <=? 0x200A))
  || (c =? 0x2028) || (c =? 0x2029) || (c =? 0x202F)
  || (c =? 0x205F) || (c =? 0x3000).

Fixpoint lstrip (s : str) : str :=
  match s with
  | c :: r => if isspace c then lstrip r else s
  | [] => []
  end.

Definition rstrip (s : str) : str := rev (lstrip (rev s)).

Definition strip (s : str) : str := rstrip (lstrip s).

(** [s.startswith(p)] *)
Fixpoint startswith (s p : str) : bool :=
  match p, s with
  | [], _ => true
  | _ :: _, [] => false
  | a :: p', c :: s' => (c =? a) && startswith s' p'
  end.

(** [s.endswith(c)] for a one-character suffix *)
Definition endswith (s : str) (c : char) : bool :=
  match last s with
  | Some d => d =? c
  | None => false
  end.

(** [s[:-1]] *)
Definition but_last (s : str) : str := removelast s.

(** [s.split(sep)] for a one-character separator: never an empty list. *)
Fixpoint split (sep : char) (s : str) : list str :=
  match s with
  | [] => [[]]
  | c :: r =>
      if c =? sep then [] :: split sep r
      else match split sep r with
           | h :: t => (c :: h) :: t
           | [] => [[c]]
           end
  end.

(** [l[0]] *)
Definition item0 {A} (l : list A) : result A :=
  match l with
  | x :: _ => Ok x
  | [] => Raise IndexError
  end.

(** [sep.join(l)] for a one-character separator *)
Fixpoint join (sep : char) (l : list str) : str :=
  match l with
  | [] => []
  | [x] => x
  | x :: r => x ++ sep :: join sep r
  end.

(** [s.count(c)] for one character *)
Definition count (s : str) (c : char) : Z :=
  Z.of_nat (length (filter (fun d => d =? c) s)).

(** [s.replace(c, '')] for one character *)
Definition remove (s : str) (c : char) : str :=
  filter (fun d => negb (d =? c)) s.

(** [len(s)] *)
Definition len {A} (l : list A) : Z := Z.of_nat (length l).

(** [set(s)] *)
Definition set (s : str) : gset N := list_to_set s.

End Py.

(** ** The two regular expressions of the parser

    Both are a greedy star over a character class (group 1) followed by a
    continuation (group 2) that must reach the end of the line.  The star
    first tries to take one more character and only stops where the rest
    of the pattern matches, as the backtracking matcher of [re] does. *)

Definition VERT : char := 0x2502%N.    (* U+2502, vertical bar *)
Definition TEE : char := 0x251C%N.     (* U+251C, branch tee *)
Definition CORNER : char := 0x2514%N.  (* U+2514, corner *)
Definition HORIZ : char := 0x2500%N.   (* U+2500, horizontal bar *)

Definition is_glyph (c : char) : bool :=
  (c =? VERT) || (c =? TEE) || (c =? CORNER) || (c =? HORIZ).

Module Re.

(** Dot-star and [$]: any characters but newline, up to the end of the
    string or to a newline that ends it; the text matched by the
    dot-star. *)
Fixpoint dotstar_end (s : str) : option str :=
  match s with
  | [] => Some []
  | c :: r =>
      if c =? 10 then (match r with [] => Some [] | _ :: _ => None end)
      else cons c <$> dotstar_end r
  end.

(** Star of the class [cls], then [k]: group 1 and group 2 of the first
    match in backtracking order, longest group 1 first. *)
Fixpoint star_then (cls : char -> bool) (k : str -> option str) (s : str)
  : option (str * str) :=
  let stop := pair [] <$> k s in
  match s with
  | c :: r =>
      if cls c then
        match star_then cls k r with
        | Some (g1, g2) => Some (c :: g1, g2)
        | None => stop
        end
      else stop
  | [] => stop
  end.

(** One character that is not a glyph, then dot-star and [$]. *)
Definition label_then_end (s : str) : option str :=
  match s with
  | c :: r => if is_glyph c then None else cons c <$> dotstar_end r
  | [] => None
  end.

(** The first [re.match]: group 1 is a star over the four glyphs and
    [\s], group 2 a non-glyph character followed by dot-star. *)
Definition match_tree (line : str) : option (str * str) :=
  star_then (fun c => is_glyph c || Py.isspace c) label_then_end line.

(** The second [re.match]: group 1 is a star over [\s], group 2 a
    dot-star. *)
Definition match_plain (line : str) : option (str * str) :=
  star_then Py.isspace dotstar_end line.

End Re.

(** ** parse_structure_file *)

Inductive item_type : Set := dir | file.

Definition entry : Type := str * item_type.

(** The parser's two lists.  [current_path] is kept innermost first:
    Python's [append] and [pop] act on the head, and ['/'.join] reads the
    list back outermost first. *)
Record state : Type := State {
  paths : list entry;
  current_path : list str
}.

Definition joined (cur : list str) : str := Py.join (ord "/") (rev cur).

(** [if not line or set(line) == {'-', ' '} or line.startswith('```')] *)
Definition is_skipped (line : str) : bool :=
  match line with [] => true | _ :: _ => false end
  || bool_decide (Py.set line = {[ ord "-"; ord " " ]})
  || Py.startswith line [ord "`"; ord "`"; ord "`"].

(** The indentation prefix and the stripped remainder of a line, or [None]
    where the source reaches its inner [continue]. *)
Definition split_indent (line : str) : option (str * str) :=
  match Re.match_tree line with
  | Some (g1, g2) => Some (g1, Py.strip g2)
  | None =>
      match Re.match_plain line with
      | Some (g1, g2) => Some (g1, Py.strip g2)
      | None => None
      end
  end.

(** [depth = count('│') + count('├') + count('└') + count('─')] and then
    [depth += len(indent_part without the four glyphs) // 2] *)
Definition depth_of (indent_part : str) : Z :=
  let depth :=
    (Py.count indent_part VERT + Py.count indent_part TEE
     + Py.count indent_part CORNER + Py.count indent_part HORIZ)%Z in
  (depth
   + Py.len (Py.remove (Py.remove (Py.remove (Py.remove indent_part VERT)
                                     TEE) CORNER) HORIZ) / 2)%Z.

(** [while len(current_path) > depth: current_path.pop()] *)
Fixpoint pop_deeper (depth : Z) (cur : list str) {struct cur}
  : result (list str) :=
  if (depth <? Py.len cur)%Z then
    match cur with
    | _ :: below => pop_deeper depth below
    | [] => Raise IndexError
    end
  else Ok cur.

(** [item.split('#')[0].strip()] *)
Definition clean_item (item : str) : result str :=
  first ← Py.item0 (Py.split (ord "#") item);
  mret (Py.strip first).

(** One iteration of [for line in lines]. *)
Definition parse_line (st : state) (raw : str) : result state :=
  let line := Py.rstrip raw in
  if is_skipped line then mret st
  else
    match split_indent line with
    | None => mret st
    | Some (indent_part, item) =>
        let depth := depth_of indent_part in
        cur ← pop_deeper depth (current_path st);
        item ← clean_item item;
        match item with
        | [] => mret (State (paths st) cur)
        | _ :: _ =>
            if Py.endswith item (ord "/") then
              let cur := Py.but_last item :: cur in
              mret (State (paths st ++ [(joined cur, dir)]) cur)
            else
              let file_path := joined (item :: cur) in
              mret (State (paths st ++ [(file_path, file)]) cur)
        end
    end.

Fixpoint parse_lines (st : state) (lines : list str) : result state :=
  match lines with
  | [] => mret st
  | raw :: rest => st ← parse_line st raw; parse_lines st rest
  end.

Definition initial : state := State [] [].

(** ** Reading the file

    [open(filepath, 'r', encoding='utf-8')] and [f.readlines()]: the bytes
    are decoded as strict UTF-8, and the text is cut after every line end,
    each of [\n], [\r] and [\r\n] being handed over as [\n]. *)

Inductive source : Type :=
| Missing
| Content (bytes : list byte).

Module Utf8.

Definition cont (b : N) : bool := (0x80 <=? b) && (b <=? 0xBF).

Definition low6 (b : N) : N := b - 0x80.

Definition surrogate (c : char) : bool := (0xD800 <=? c) && (c <=? 0xDFFF).

(** Strict decoding: no truncated or overlong sequence, no surrogate,
    nothing above U+10FFFF. *)
Fixpoint decode_N (bs : list N) : option str :=
  match bs with
  | [] => Some []
  | b0 :: r0 =>
      if b0 <? 0x80 then cons b0 <$> decode_N r0
      else if b0 <? 0xC2 then None
      else if b0 <? 0xE0 then
        match r0 with
        | b1 :: r1 =>
            if cont b1
            then cons ((b0 - 0xC0) * 64 + low6 b1) <$> decode_N r1
            else None
        | _ => None
        end
      else if b0 <? 0xF0 then
        match r0 with
        | b1 :: b2 :: r2 =>
            let c := (b0 - 0xE0) * 4096 + low6 b1 * 64 + low6 b2 in
            if cont b1 && cont b2 && (0x800 <=? c) && negb (surrogate c)
            then cons c <$> decode_N r2
            else None
        | _ => None
        end
      else if b0 <? 0xF5 then
        match r0 with
        | b1 :: b2 :: b3 :: r3 =>
            let c := (b0 - 0xF0) * 262144 + low6 b1 * 4096
                     + low6 b2 * 64 + low6 b3 in
            if cont b1 && cont b2 && cont b3
               && (0x10000 <=? c) && (c <=? 0x10FFFF)
            then cons c <$> decode_N r3
            else None
        | _ => None
        end
      else None
  end.

Definition decode (bs : list byte) : option str :=
  decode_N (map Byte.to_N bs).

End Utf8.

(** [f.readlines()] in universal-newlines mode; every line but possibly the
    last ends with [\n]. *)
Fixpoint readlines (text : str) : list str :=
  match text with
  | [] => []
  | c :: rest =>
      if c =? 10 then [10] :: readlines rest
      else if c =? 13 then
        match rest with
        | d :: rest' =>
            if d =? 10 then [10] :: readlines rest'
            else [10] :: readlines rest
        | [] => [[10]]
        end
      else
        match readlines rest with
        | l :: ls => (c :: l) :: ls
        | [] => [[c]]
        end
  end.

Definition read_text (src : source) : result str :=
  match src with
  | Missing => Raise FileNotFoundError
  | Content bytes =>
      match Utf8.decode bytes with
      | Some text => Ok text
      | None => Raise UnicodeDecodeError
      end
  end.

Definition parse_structure_file (src : source) : result (list entry) :=
  text ← read_text src;
  st ← parse_lines initial (readlines text);
  mret (paths st).

(** ** Literals

    A structure file given line by line, and a Python string literal. *)

Definition file_of (lines : list string) : source :=
  Content (concat (map (fun l => list_byte_of_string l ++ [Byte.x0a]) lines)).

Definition py (s : string) : str :=
  default [] (Utf8.decode (list_byte_of_string s)).

Definition sibling_after_branch : source :=
  file_of ["a/"; "  b/"; "  c.py"; "d/"]%string.

Definition round_trip : source :=
  file_of ["myproject/"; "├── README.md"; "├── src/"; "│   └── main.py"]%string.

Definition glyph_siblings : source :=
  file_of ["x/"; "├── a/"; "├── b/"]%string.

(** ** Observing a line

    What the loop body computes from the line alone, before it touches the
    two lists: the match groups, the depth and the cleaned label.  [None]
    is a line that reaches a [continue] before the depth is computed. *)

Definition line_parts (raw : str) : option (str * str) :=
  let line := Py.rstrip raw in
  if is_skipped line then None else split_indent line.

Definition line_depth (raw : str) : option Z :=
  (fun p => depth_of p.1) <$> line_parts raw.

Definition label_of (item : str) : str :=
  Py.strip (hd [] (Py.split (ord "#") item)).

Definition line_label (raw : str) : option str :=
  (fun p => label_of p.2) <$> line_parts raw.

(** The depth of a line that emits a directory entry. *)
Definition dir_depth (raw : str) : option Z :=
  match line_parts raw with
  | Some (indent_part, item) =>
      match label_of item with
      | [] => None
      | (_ :: _) as label =>
          if Py.endswith label (ord "/") then Some (depth_of indent_part)
          else None
      end
  | None => None
  end.

(** The depth of the most recently emitted directory entry. *)
Fixpoint last_dir_depth_from (seen : option Z) (lines : list str) : option Z :=
  match lines with
  | [] => seen
  | raw :: rest =>
      last_dir_depth_from
        (match dir_depth raw with Some d => Some d | None => seen end) rest
  end.

Definition last_dir_depth (lines : list str) : option Z :=
  last_dir_depth_from None lines.

(** The maximum depth computed for any line so far (0 before any). *)
Fixpoint max_depth_from (m : Z) (lines : list str) : Z :=
  match lines with
  | [] => m
  | raw :: rest =>
      max_depth_from
        (match line_depth raw with Some d => Z.max m d | None => m end) rest
  end.

Definition max_depth (lines : list str) : Z := max_depth_from 0 lines.

(** The innermost-first stack cut down to at most [depth] segments. *)
Definition keep (depth : Z) (cur : list str) : list str :=
  drop (length cur - Z.to_nat depth) cur.

(** The loop body as a total function of the state. *)
Definition step (st : state) (raw : str) : state :=
  match line_parts raw with
  | None => st
  | Some (indent_part, item) =>
      let cur := keep (depth_of indent_part) (current_path st) in
      match label_of item with
      | [] => State (paths st) cur
      | (_ :: _) as label =>
          if Py.endswith label (ord "/") then
            State (paths st ++ [(joined (Py.but_last label :: cur), dir)])
                  (Py.but_last label :: cur)
          else State (paths st ++ [(joined (label :: cur), file)]) cur
      end
  end.




(** ** Statements about a run

    The lines a source is cut into, and the predicates the theorems below
    are stated with. *)

Definition lines_of (src : source) : list str :=
  match read_text src with
  | Ok text => readlines text
  | Raise _ => []
  end.

(** The stack against the most recently emitted directory entry. *)
Definition tracks_last_dir (bound : Z -> Z -> Prop) (lines : list str) : Prop :=
  exists st,
    parse_lines initial lines = Ok st
    /\ match last_dir_depth lines with
       | Some d => bound (Py.len (current_path st)) (d + 1)%Z
       | None => Py.len (current_path st) = 0%Z
       end.





(** * create_structure

    The file system is a finite map from absolute component lists to
    nodes; the root [[]] is always a directory.  Paths are resolved one
    component at a time, [..] stepping back to the parent.  An operation
    returns the file system it leaves behind together with its result, so
    that what was done before an exception stays done. *)

Inductive node : Type :=
| Directory
| Regular (content : str).

Abbreviation path := (list (list N)) (only parsing).
Abbreviation FS := (gmap (list (list N)) node) (only parsing).

Definition io (A : Type) : Type := FS -> FS * result A.

#[global] Instance io_ret : MRet io := fun A a fs => (fs, Ok a).
#[global] Instance io_bind : MBind io := fun A B f m fs =>
  match m fs with
  | (fs', Ok a) => f a fs'
  | (fs', Raise e) => (fs', Raise e)
  end.

Module Os.

Definition fail {A} (e : exn) : io A := fun fs => (fs, Raise e).

Definition node_at (fs : FS) (p : path) : option node :=
  match p with
  | [] => Some Directory
  | _ :: _ => fs !! p
  end.

Definition enter (here : path) (c : str) : path :=
  if bool_decide (c = [ord "."; ord "."]) then removelast here
  else here ++ [c].

(** [os.stat] *)
Fixpoint stat_from (fs : FS) (here : path) (rest : list str) : result node :=
  match node_at fs here with
  | None => Raise FileNotFoundError
  | Some n =>
      match rest with
      | [] => Ok n
      | c :: rest' =>
          match n with
          | Directory => stat_from fs (enter here c) rest'
          | Regular _ => Raise NotADirectoryError
          end
      end
  end.

Definition stat (fs : FS) (p : path) : result node := stat_from fs [] p.

(** [Path.exists()]: false for a missing path and below a regular file. *)
Definition path_exists (p : path) : io bool := fun fs =>
  (fs, Ok (match stat fs p with Ok _ => true | Raise _ => false end)).

(** [Path.mkdir(parents=True, exist_ok=True)] *)
Fixpoint mkdir_from (here : path) (rest : list str) : io unit := fun fs =>
  match node_at fs here with
  | Some (Regular _) =>
      (fs, Raise (match rest with
                  | [] => FileExistsError
                  | _ :: _ => NotADirectoryError
                  end))
  | Some Directory =>
      match rest with
      | [] => (fs, Ok tt)
      | c :: rest' => mkdir_from (enter here c) rest' fs
      end
  | None =>
      match rest with
      | [] => (<[here := Directory]> fs, Ok tt)
      | c :: rest' =>
          mkdir_from (enter here c) rest' (<[here := Directory]> fs)
      end
  end.

Definition mkdir_parents (p : path) : io unit := mkdir_from [] p.

(** Opening [p] for writing, creating it in an existing directory. *)
Definition create_or_truncate (p : path) (content : option str) : io unit :=
  fun fs =>
    match stat fs p with
    | Ok Directory => (fs, Raise IsADirectoryError)
    | Ok (Regular old) =>
        (<[p := Regular (default old content)]> fs, Ok tt)
    | Raise _ =>
        match stat fs (removelast p) with
        | Ok Directory => (<[p := Regular (default [] content)]> fs, Ok tt)
        | Ok (Regular _) => (fs, Raise NotADirectoryError)
        | Raise e => (fs, Raise e)
        end
    end.

(** [Path.touch()] *)
Definition touch (p : path) : io unit := fun fs =>
  match stat fs p with
  | Ok _ => (fs, Ok tt)
  | Raise _ => create_or_truncate p None fs
  end.

(** [with open(p, 'w') as f: f.write(content)] *)
Definition write_text (p : path) (content : str) : io unit :=
  create_or_truncate p (Some content).

End Os.

Module Pathlib.

(** The components of a path string: empty ones and [.] are dropped. *)
Definition parts (s : str) : path :=
  filter (fun c => negb (bool_decide (c = []))
                   && negb (bool_decide (c = [ord "."])))
         (Py.split (ord "/") s).

(** [base / s]: an absolute [s] replaces [base]. *)
Definition truediv (base : path) (s : str) : path :=
  if Py.startswith s [ord "/"] then parts s else base ++ parts s.

(** [p.parent] *)
Definition parent (p : path) : path := removelast p.

(** [p.name] *)
Definition name (p : path) : str := default [] (last p).

(** [str(p)] *)
Definition to_str (p : path) : str := ord "/" :: Py.join (ord "/") p.

End Pathlib.

(** ** Default contents

    The texts are written with ['] where the file has a double quote. *)

Definition quoted (s : str) : str :=
  map (fun c => if c =? ord "'" then 34 else c) s.

Definition init_py_text : str := quoted (py "'''Package initialization.'''
").

(** [json.dump(default_settings, f, indent=4)] *)
Definition settings_json_text : str := quoted (py "{
    'timer_intervals': {
        'focus': 30,
        'short_break': 5,
        'long_break': 15
    },
    'growth_stages': {
        'seed': {
            'minutes': 0,
            'image': 'seed.png'
        },
        'sprout': {
            'minutes': 30,
            'image': 'sprout.png'
        },
        'plant': {
            'minutes': 60,
            'image': 'plant.png'
        },
        'flower': {
            'minutes': 90,
            'image': 'flower.png'
        }
    }
}").

Definition requirements_text : str := py "# Dependencies
Pillow>=9.0.0
".

Definition readme_text (base_dir : path) : str :=
  py "# " ++ Pathlib.name base_dir ++ py "

Project generated from structure file.
".

Definition gitignore_text : str := py "# Python
__pycache__/
*.py[cod]
*.so
.Python

# Environment
.env
.venv
env/
venv/

# IDE
.vscode/
.idea/
*.swp
*.swo
*~

# OS
.DS_Store
Thumbs.db
".

(** The [if]/[elif] chain on [full_path.name]. *)
Definition default_text (base_dir : path) (name : str) : option str :=
  if bool_decide (name = py "__init__.py") then Some init_py_text
  else if bool_decide (name = py "settings.json") then Some settings_json_text
  else if bool_decide (name = py "requirements.txt") then Some requirements_text
  else if bool_decide (name = py "README.md") then Some (readme_text base_dir)
  else if bool_decide (name = py ".gitignore") then Some gitignore_text
  else None.

(** ** The materializer *)

Record created : Type := Created {
  dirs : list str;
  files : list str
}.

(** The lines printed for the entries. *)
Inductive report : Type :=
| CreatedDirectory (path : str)
| FailedDirectory (path : str) (e : exn)
| CreatedFile (path : str)
| FailedFile (path : str) (e : exn).

Record world : Type := World {
  disk : FS;
  summary : created;
  printed : list report
}.

(** The body of the [try] for a directory entry. *)
Definition make_dir (full_path : path) : io unit :=
  Os.mkdir_parents full_path.

(** The body of the [try] for a file entry, up to the [append]. *)
Definition make_file (base_dir full_path : path) : io unit :=
  _ ← Os.mkdir_parents (Pathlib.parent full_path);
  present ← Os.path_exists full_path;
  if present : bool then mret tt
  else
    _ ← Os.touch full_path;
    match default_text base_dir (Pathlib.name full_path) with
    | Some text => Os.write_text full_path text
    | None => mret tt
    end.

(** One iteration of [for path, item_type in paths]. *)
Definition create_entry (base_dir : path) (w : world) (e : entry) : world :=
  let '(path, item_type) := e in
  let full_path := Pathlib.truediv base_dir path in
  match item_type with
  | dir =>
      match make_dir full_path (disk w) with
      | (fs, Ok _) =>
          World fs
                (Created (dirs (summary w) ++ [Pathlib.to_str full_path])
                         (files (summary w)))
                (printed w ++ [CreatedDirectory path])
      | (fs, Raise e) =>
          World fs (summary w) (printed w ++ [FailedDirectory path e])
      end
  | file =>
      match make_file base_dir full_path (disk w) with
      | (fs, Ok _) =>
          World fs
                (Created (dirs (summary w))
                         (files (summary w) ++ [Pathlib.to_str full_path]))
                (printed w ++ [CreatedFile path])
      | (fs, Raise e) =>
          World fs (summary w) (printed w ++ [FailedFile path e])
      end
  end.

(** [create_structure(paths, base_dir)] on the file system [fs], with the
    working directory [cwd] standing in for a missing [base_dir]. *)
Definition create_structure (cwd : path) (fs : FS) (paths : list entry)
    (base_dir : option path) : world :=
  let base_dir := default cwd base_dir in
  fold_left (create_entry base_dir) paths (World fs (Created [] []) []).

Definition sample_disk : FS :=
  {[ [py "proj"] := Directory;
     [py "proj"; py "src"] := Directory;
     [py "proj"; py "README.md"] := Regular (py "mine") ]}.


(** The created lists name only paths that were absent before the run. *)
Definition lists_only_new (cwd : path) (fs : FS) (paths : list entry)
    (base_dir : option path) : Prop :=
  let w := create_structure cwd fs paths base_dir in
  forall p : path,
    Pathlib.to_str p ∈ dirs (summary w) ++ files (summary w) ->
    Os.stat fs p = Raise FileNotFoundError.

(** * Further statements

    The kind of entry a line contributes, if any. *)
Definition emits (raw : str) : option item_type :=
  match line_label raw with
  | Some ((_ :: _) as label) =>
      Some (if Py.endswith label (ord "/") then dir else file)
  | _ => None
  end.

(** A line without a line feed, as [readlines] and [rstrip] leave it. *)
Definition newline_free (s : str) : bool :=
  forallb (fun c => negb (c =? 10)) s.

(** The glyphs of an indentation prefix, and all its characters. *)
Definition glyph_count (s : str) : Z := Py.len (filter is_glyph s).

(** The characters the first pattern takes into the indentation prefix. *)
Definition is_indent (c : char) : bool := is_glyph c || Py.isspace c.

(** A line as [readlines] hands it over: no line feed but, possibly, the
    one that ends it. *)
Definition read_shape (raw : str) : Prop :=
  exists body, newline_free body = true /\ (raw = body \/ raw = body ++ [10]).

(** At every point each open ancestor on the stack has been emitted as a
    directory entry, under the path the stack gives it. *)
Definition ancestors_listed (st : state) : Prop :=
  forall t : list str,
    t <> [] -> t `suffix_of` current_path st -> (joined t, dir) ∈ paths st.

(** A string without the comment character. *)
Definition hash_free (s : str) : bool :=
  forallb (fun c => negb (c =? ord "#")) s.

(** A file entry names something: its path is not empty and does not end
    with the directory marker. *)
Definition names_a_file (e : entry) : Prop :=
  match e.2 with
  | file => e.1 <> [] /\ Py.endswith e.1 (ord "/") = false
  | dir => True
  end.

(** A path without a [..] component. *)
Definition plain_path (p : path) : bool :=
  forallb (fun c => negb (bool_decide (c = [ord "."; ord "."]))) p.

(** What one entry does to the file system, and the line printed for it. *)
Definition run_entry (base_dir : path) (fs : FS) (e : entry) : FS * report :=
  let full_path := Pathlib.truediv base_dir e.1 in
  match e.2 with
  | dir =>
      match make_dir full_path fs with
      | (fs', Ok _) => (fs', CreatedDirectory e.1)
      | (fs', Raise x) => (fs', FailedDirectory e.1 x)
      end
  | file =>
      match make_file base_dir full_path fs with
      | (fs', Ok _) => (fs', CreatedFile e.1)
      | (fs', Raise x) => (fs', FailedFile e.1 x)
      end
  end.

(** The entry a printed line is about. *)
Definition report_path (r : report) : str :=
  match r with
  | CreatedDirectory p | FailedDirectory p _ | CreatedFile p
  | FailedFile p _ => p
  end.

(** The created lists after a printed line. *)
Definition record (base_dir : path) (s : created) (r : report) : created :=
  match r with
  | CreatedDirectory p =>
      Created (dirs s ++ [Pathlib.to_str (Pathlib.truediv base_dir p)])
              (files s)
  | CreatedFile p =>
      Created (dirs s)
              (files s ++ [Pathlib.to_str (Pathlib.truediv base_dir p)])
  | FailedDirectory _ _ | FailedFile _ _ => s
  end.

(** File entries whose target has no [..] component. *)
Definition plain_entry (base_dir : path) (e : entry) : bool :=
  match e.2 with
  | file => plain_path (Pathlib.truediv base_dir e.1)
  | dir => true
  end.

(** The file system and the printed lines after a list of entries. *)
Fixpoint run_all (base_dir : path) (fs : FS) (paths : list entry)
  : FS * list report :=
  match paths with
  | [] => (fs, [])
  | e :: rest =>
      let '(fs1, r) := run_entry base_dir fs e in
      let '(fs2, rs) := run_all base_dir fs1 rest in
      (fs2, r :: rs)
  end.

(** * Writing text

    [open(filepath, 'w', encoding='utf-8')]: the bytes of a text.  The
    code points of a Python [str] are below [0x110000]. *)

Definition encode_char (c : char) : list N :=
  if c <? 0x80 then [c]
  else if c <? 0x800 then [0xC0 + c / 64; 0x80 + c mod 64]
  else if c <? 0x10000 then
    [0xE0 + c / 4096; 0x80 + (c / 64) mod 64; 0x80 + c mod 64]
  else
    [0xF0 + c / 262144; 0x80 + (c / 4096) mod 64; 0x80 + (c / 64) mod 64;
     0x80 + c mod 64].

Definition utf8_encode_N (text : str) : list N := flat_map encode_char text.

Definition utf8_encode (text : str) : list byte :=
  map (fun b => default Byte.x00 (Byte.of_N b)) (utf8_encode_N text).

(** A character that UTF-8 can carry: a code point that is no surrogate. *)
Definition is_scalar (c : char) : bool :=
  (c <? 0x110000) && negb (Utf8.surrogate c).

(** * create_template and main

    The template, as the bytes of the literal in the source. *)
Definition template : string := "# Project Structure Template
# Directories end with /, files don't
# Use indentation or tree characters to show hierarchy

myproject/
├── README.md
├── requirements.txt
├── src/
│   ├── __init__.py
│   ├── main.py
│   └── utils/
│       ├── __init__.py
│       └── helpers.py
├── tests/
│   ├── __init__.py
│   ├── test_main.py
│   └── test_utils.py
├── docs/
│   └── index.md
├── config/
│   └── settings.json
└── .gitignore

# You can also use simple indentation:
# myproject/
#     src/
#         main.py
#     tests/
#         test_main.py
".

(** [create_template(filepath)] *)
Definition create_template (filepath : path) : io unit :=
  Os.write_text filepath (py template).

(** The parsed command line. *)
Record args : Type := Args {
  structure_file : str;
  output : option str;
  dry_run : bool;
  init : bool
}.

(** What [main] prints, one constructor for each [print] or group of
    [print]s that belong together; the prompts of [input] are left out. *)
Inductive message : Type :=
| Cancelled
| TemplateCreated (template_path : path)
| NotFound (name : str)
| Parsing (name : str)
| ParseFailed (e : exn)
| NoValidPaths
| Found (count : Z) (shown : list entry) (more : option Z)
| DryRunComplete
| Creating
| Entry (r : report)
| Summary (dirs_created files_created : Z)
| Done
| Traceback (e : exn).

Record outcome : Type := Outcome {
  exit_code : Z;
  left_disk : FS;
  messages : list message
}.

(** [response.lower() == 'y']: only [y] and [Y] are lowered to [y]. *)
Definition is_yes (response : str) : bool :=
  bool_decide (response = [ord "y"]) || bool_decide (response = [ord "Y"]).

(** [os.path.isfile(name)], for a name relative to the working directory *)
Definition isfile (cwd : path) (fs : FS) (name : str) : bool :=
  match Os.stat fs (Pathlib.truediv cwd name) with
  | Ok (Regular _) => true
  | _ => false
  end.

(** What [open(name, 'r')] is given: the bytes of the text on the disk. *)
Definition open_file (cwd : path) (fs : FS) (name : str) : source :=
  match Os.stat fs (Pathlib.truediv cwd name) with
  | Ok (Regular text) => Content (utf8_encode text)
  | _ => Missing
  end.

(** The lines after [Found ... items to create]: the first ten entries. *)
Definition found (paths : list entry) : message :=
  Found (Py.len paths) (take 10 paths)
        (if (10 <? Py.len paths)%Z then Some (Py.len paths - 10)%Z else None).

(** [main()], for the arguments [a], the line [response] typed at the one
    prompt a run can reach, the working directory and the disk.  A
    relative output directory is taken as resolved against the working
    directory, so that [base_dir.name] is the last component of the
    resolved path.  [sys.exit(1)] and an exception that nothing catches
    end the run with exit code 1. *)
Definition main (a : args) (response : str) (cwd : path) (fs : FS) : outcome :=
  if init a then
    let template_path := Pathlib.truediv cwd (py "structure.txt") in
    if (Os.path_exists template_path fs).2 is Ok true then
      if negb (is_yes response) then Outcome 0 fs [Cancelled]
      else
        match create_template template_path fs with
        | (fs', Ok _) => Outcome 0 fs' [TemplateCreated template_path]
        | (fs', Raise e) => Outcome 1 fs' [Traceback e]
        end
    else
      match create_template template_path fs with
      | (fs', Ok _) => Outcome 0 fs' [TemplateCreated template_path]
      | (fs', Raise e) => Outcome 1 fs' [Traceback e]
      end
  else if negb (isfile cwd fs (structure_file a)) then
    Outcome 1 fs [NotFound (structure_file a)]
  else
    match parse_structure_file (open_file cwd fs (structure_file a)) with
    | Raise e => Outcome 1 fs [Parsing (structure_file a); ParseFailed e]
    | Ok [] => Outcome 1 fs [Parsing (structure_file a); NoValidPaths]
    | Ok ((_ :: _) as paths) =>
        if dry_run a then
          Outcome 0 fs [Parsing (structure_file a); found paths;
                        DryRunComplete]
        else if negb (is_yes response) then
          Outcome 0 fs [Parsing (structure_file a); found paths; Cancelled]
        else
          let w := create_structure cwd fs paths
                     (Pathlib.truediv cwd <$> output a) in
          Outcome 0 (disk w)
                  ([Parsing (structure_file a); found paths; Creating]
                   ++ map Entry (printed w)
                   ++ [Summary (Py.len (dirs (summary w)))
                               (Py.len (files (summary w)));
                       Done])
    end.

(** The entries the template is parsed to. *)
Definition template_entries : list entry :=
  [(py "myproject", dir);
   (py "myproject/README.md", file);
   (py "myproject/requirements.txt", file);
   (py "myproject/src", dir);
   (py "myproject/src/__init__.py", file);
   (py "myproject/src/main.py", file);
   (py "myproject/src/utils", dir);
   (py "myproject/src/utils/__init__.py", file);
   (py "myproject/src/utils/helpers.py", file);
   (py "myproject/src/utils/tests", dir);
   (py "myproject/src/utils/tests/__init__.py", file);
   (py "myproject/src/utils/tests/test_main.py", file);
   (py "myproject/src/utils/tests/test_utils.py", file);
   (py "myproject/src/utils/docs", dir);
   (py "myproject/src/utils/docs/index.md", file);
   (py "myproject/src/utils/config", dir);
   (py "myproject/src/utils/config/settings.json", file);
   (py "myproject/src/utils/.gitignore", file)].

Definition home_disk : FS := {[ [py "home"] := Directory ]}.

(** * Properties of the parser *)

Section Parser.

Implicit Types (st : state) (raw line item : str) (cur : list str) (d : Z).

Lemma depth_of_nonneg (indent_part : str) : (0 <= depth_of indent_part)%Z.
Proof.
  unfold depth_of, Py.count, Py.len.
  apply Z.add_nonneg_nonneg; [lia|].
  apply Z.div_pos; lia.
Qed.

Lemma pop_deeper_keep d cur :
  (0 <= d)%Z -> pop_deeper d cur = Ok (keep d cur).
Proof.
  intros Hd. unfold keep.
  induction cur as [|x below IH]; cbn [pop_deeper].
  - destruct (Z.ltb_spec d (Py.len (@nil (list N)))) as [H|H];
      [unfold Py.len in H; cbn in H; lia | reflexivity].
  - destruct (Z.ltb_spec d (Py.len (x :: below))) as [H|H];
      unfold Py.len in H; cbn [length] in H.
    + rewrite IH. f_equal.
      replace (length (x :: below) - Z.to_nat d)%nat
        with (S (length below - Z.to_nat d)) by (cbn [length]; lia).
      reflexivity.
    + replace (length (x :: below) - Z.to_nat d)%nat with 0%nat
        by (cbn [length]; lia).
      reflexivity.
Qed.

Lemma split_not_nil (sep : char) (s : str) : Py.split sep s <> [].
Proof.
  destruct s as [|c r]; cbn; [discriminate|].
  destruct (c =? sep); [discriminate|].
  destruct (Py.split sep r); discriminate.
Qed.

Lemma clean_item_label item : clean_item item = Ok (label_of item).
Proof.
  unfold clean_item, label_of.
  pose proof (split_not_nil (ord "#") item) as H.
  destruct (Py.split (ord "#") item); [contradiction|reflexivity].
Qed.

(** The loop body never raises: it is [step]. *)
Lemma parse_line_step st raw : parse_line st raw = Ok (step st raw).
Proof.
  unfold parse_line, step, line_parts.
  destruct (is_skipped (Py.rstrip raw)); [reflexivity|].
  destruct (split_indent (Py.rstrip raw)) as [[indent_part item]|];
    [|reflexivity].
  rewrite (pop_deeper_keep _ _ (depth_of_nonneg indent_part)).
  cbn [mbind result_bind].
  rewrite clean_item_label. cbn [mbind result_bind].
  destruct (label_of item) as [|c label]; [reflexivity|].
  destruct (Py.endswith (c :: label) (ord "/")); reflexivity.
Qed.

Lemma parse_lines_fold st (lines : list str) :
  parse_lines st lines = Ok (fold_left step lines st).
Proof.
  revert st. induction lines as [|raw rest IH]; intros st; [reflexivity|].
  cbn [parse_lines fold_left]. rewrite parse_line_step.
  cbn [mbind result_bind]. apply IH.
Qed.

End Parser.

(** ** Worked inputs *)

(** C1, as stated: the spec lists [a/b/c.py] for the third line.  The
    parser does not produce that list. *)
Lemma sibling_after_branch_not_under_b :
  parse_structure_file sibling_after_branch
  <> Ok [(py "a", dir); (py "a/b", dir); (py "a/b/c.py", file);
         (py "d", dir)].
Proof. vm_compute. discriminate. Qed.

(** C1, amended: the four lines [a/], [  b/], [  c.py], [d/] have depths
    0, 1, 1, 0 and yield (a, dir), (a/b, dir), (a/c.py, file), (d, dir):
    [c.py] at depth 1 pops [b] and lands beside it, and [d] is not nested
    under [a]. *)
Theorem sibling_after_branch_entries :
  map line_depth (lines_of sibling_after_branch)
  = [Some 0; Some 1; Some 1; Some 0]%Z
  /\ parse_structure_file sibling_after_branch
     = Ok [(py "a", dir); (py "a/b", dir); (py "a/c.py", file);
           (py "d", dir)].
Proof. split; vm_compute; reflexivity. Qed.

(** C2: the box-drawing round trip yields (myproject, dir),
    (myproject/README.md, file), (myproject/src, dir),
    (myproject/src/main.py, file), in this order. *)
Theorem round_trip_entries :
  parse_structure_file round_trip
  = Ok [(py "myproject", dir); (py "myproject/README.md", file);
        (py "myproject/src", dir); (py "myproject/src/main.py", file)].
Proof. vm_compute. reflexivity. Qed.

(** C3: for [x/], [├── a/], [├── b/] both glyph lines have depth 3, the
    stack has length 2 after [a] is pushed and is not popped, and the
    entries are (x, dir), (x/a, dir), (x/a/b, dir). *)
Theorem glyph_siblings_nest :
  map line_depth (lines_of glyph_siblings) = [Some 0; Some 3; Some 3]%Z
  /\ parse_lines initial (take 2 (lines_of glyph_siblings))
     = Ok (State [(py "x", dir); (py "x/a", dir)] [py "a"; py "x"])
  /\ parse_lines initial (lines_of glyph_siblings)
     = Ok (State [(py "x", dir); (py "x/a", dir); (py "x/a/b", dir)]
                 [py "b"; py "a"; py "x"])
  /\ parse_structure_file glyph_siblings
     = Ok [(py "x", dir); (py "x/a", dir); (py "x/a/b", dir)].
Proof. repeat split; vm_compute; reflexivity. Qed.

(** ** Totality *)



(** ** The stack *)

Lemma keep_length (d : Z) (cur : list str) :
  length (keep d cur) = Nat.min (length cur) (Z.to_nat d).
Proof. unfold keep. rewrite length_drop. lia. Qed.


Lemma step_stack_bound (st : state) (raw : str) :
  match line_depth raw with
  | Some d => (Py.len (current_path (step st raw)) <= d + 1)%Z
  | None => step st raw = st
  end.
Proof.
  unfold line_depth, step.
  destruct (line_parts raw) as [[indent_part item]|];
    cbn [fmap option_fmap option_map fst]; [|reflexivity].
  pose proof (keep_length (depth_of indent_part) (current_path st)) as Hk.
  pose proof (depth_of_nonneg indent_part) as Hd.
  destruct (label_of item) as [|c label];
    [unfold Py.len; cbn [current_path]; lia|].
  destruct (Py.endswith (c :: label) (ord "/"));
    unfold Py.len; cbn [current_path length]; lia.
Qed.

Lemma max_depth_from_ge (m : Z) (lines : list str) :
  (m <= max_depth_from m lines)%Z.
Proof.
  revert m. induction lines as [|raw rest IH]; intros m;
    cbn [max_depth_from]; [lia|].
  destruct (line_depth raw) as [d|]; [|apply IH].
  etransitivity; [|apply IH]. lia.
Qed.

Lemma fold_stack_bound (lines : list str) (st : state) (m : Z) :
  (Py.len (current_path st) <= m + 1)%Z ->
  (Py.len (current_path (fold_left step lines st))
   <= max_depth_from m lines + 1)%Z.
Proof.
  revert st m. induction lines as [|raw rest IH]; intros st m Hm;
    cbn [fold_left max_depth_from]; [assumption|].
  apply IH. generalize (step_stack_bound st raw).
  destruct (line_depth raw) as [d|]; [lia|]. intros ->. assumption.
Qed.

(** C8: the depth computed from any indentation prefix is non-negative,
    and after any sequence of lines the stack is at most one longer than
    the largest depth computed so far. *)
Theorem stack_bounded_by_max_depth :
  (forall indent_part : str, (0 <= depth_of indent_part)%Z)
  /\ (forall lines : list str,
        exists st, parse_lines initial lines = Ok st
                   /\ (Py.len (current_path st) <= max_depth lines + 1)%Z).
Proof.
  split; [exact depth_of_nonneg|].
  intros lines. exists (fold_left step lines initial).
  split; [apply parse_lines_fold|].
  apply fold_stack_bound. unfold Py.len, initial. cbn [current_path length].
  lia.
Qed.

Lemma step_dir_bound (st : state) (raw : str) :
  match dir_depth raw with
  | Some d => (Py.len (current_path (step st raw)) <= d + 1)%Z
  | None => (Py.len (current_path (step st raw)) <= Py.len (current_path st))%Z
  end.
Proof.
  unfold dir_depth, step.
  destruct (line_parts raw) as [[indent_part item]|]; [|lia].
  pose proof (keep_length (depth_of indent_part) (current_path st)) as Hk.
  pose proof (depth_of_nonneg indent_part) as Hd.
  destruct (label_of item) as [|c label];
    [unfold Py.len; cbn [current_path]; lia|].
  destruct (Py.endswith (c :: label) (ord "/"));
    unfold Py.len; cbn [current_path length]; lia.
Qed.

Lemma fold_dir_bound (lines : list str) (st : state) (seen : option Z) :
  match seen with
  | Some d => (Py.len (current_path st) <= d + 1)%Z
  | None => Py.len (current_path st) = 0%Z
  end ->
  match last_dir_depth_from seen lines with
  | Some d => (Py.len (current_path (fold_left step lines st)) <= d + 1)%Z
  | None => Py.len (current_path (fold_left step lines st)) = 0%Z
  end.
Proof.
  revert st seen. induction lines as [|raw rest IH]; intros st seen Hseen;
    cbn [fold_left last_dir_depth_from]; [assumption|].
  apply IH. generalize (step_dir_bound st raw).
  destruct (dir_depth raw) as [d|]; [trivial|].
  destruct seen as [d|]; unfold Py.len in *; lia.
Qed.

(** C7, as stated: after [a/], [  b/], [c.py] the most recent directory
    entry is [a/b], emitted at depth 1, and the stack is empty, not of
    length 2. *)
Lemma stack_shorter_than_last_dir :
  ~ tracks_last_dir eq [py "a/"; py "  b/"; py "c.py"].
Proof.
  intros (st & Hrun & Hlen). vm_compute in Hrun.
  injection Hrun as <-. vm_compute in Hlen. discriminate.
Qed.

(** C7, amended: at every line boundary the stack's length is at most the
    depth of the most recently emitted directory entry plus one, and is 0
    if no directory entry has been emitted yet. *)
Theorem stack_at_most_last_dir (lines : list str) :
  tracks_last_dir Z.le lines.
Proof.
  exists (fold_left step lines initial).
  split; [apply parse_lines_fold|].
  apply (fold_dir_bound lines initial None). reflexivity.
Qed.

(** ** Lines without a label *)




(** ** The skip rule *)

Lemma is_skipped_iff (line : str) :
  is_skipped line = true
  <-> line = []
      \/ ((forall c, c ∈ line -> c = ord "-" \/ c = ord " ")
          /\ ord "-" ∈ line /\ ord " " ∈ line)
      \/ Py.startswith line [ord "`"; ord "`"; ord "`"] = true.
Proof.
  unfold is_skipped. rewrite !orb_true_iff, bool_decide_eq_true.
  assert (Hset : Py.set line = {[ord "-"; ord " "]}
                 <-> (forall c, c ∈ line -> c = ord "-" \/ c = ord " ")
                     /\ ord "-" ∈ line /\ ord " " ∈ line).
  { unfold Py.set. split.
    - intros H. repeat split.
      + intros c Hc. apply (elem_of_list_to_set (C := gset N)) in Hc.
        rewrite H in Hc. set_solver.
      + apply (elem_of_list_to_set (C := gset N)). rewrite H. set_solver.
      + apply (elem_of_list_to_set (C := gset N)). rewrite H. set_solver.
    - intros (Hall & Hd & Hs). apply set_eq. intros c.
      rewrite elem_of_list_to_set. split.
      + intros Hc. destruct (Hall c Hc) as [-> | ->]; set_solver.
      + intros Hc. assert (c = ord "-" \/ c = ord " ") as [-> | ->]
          by set_solver; assumption. }
  rewrite Hset. destruct line as [|c line]; [tauto|].
  split; [intros [[H|H]|H]; [discriminate|tauto|tauto]|].
  intros [H|[H|H]]; [discriminate|tauto|tauto].
Qed.

Lemma skipped_line_is_neutral (st : state) (raw : str) :
  is_skipped (Py.rstrip raw) = true -> parse_line st raw = Ok st.
Proof. unfold parse_line. intros ->. reflexivity. Qed.

(** C4: a line of dashes only is not skipped.  [set('---')] is [{'-'}],
    which is not [{'-', ' '}]; the line is parsed at depth 0, empties the
    stack and is emitted as a file, so the next line loses its parent. *)
Theorem dashes_only_line_is_parsed :
  is_skipped (Py.rstrip (py "---")) = false
  /\ parse_line (State [(py "a", dir)] [py "a"]) (py "---")
     = Ok (State [(py "a", dir); (py "---", file)] [])
  /\ parse_structure_file (file_of ["a/"; "---"; "  b.py"]%string)
     = Ok [(py "a", dir); (py "---", file); (py "b.py", file)].
Proof. repeat split; vm_compute; reflexivity. Qed.

(** ** Path components *)











(** * Properties of the materializer *)

Section Materializer.

Implicit Types (fs : FS) (here p base_dir : path) (rest : list str).

Lemma mkdir_from_existing_dir fs rest here :
  Os.stat_from fs here rest = Ok Directory ->
  Os.mkdir_from here rest fs = (fs, Ok tt).
Proof.
  revert here. induction rest as [|c rest IH]; intros here;
    cbn [Os.stat_from Os.mkdir_from];
    destruct (Os.node_at fs here) as [[|content]|]; try discriminate.
  - reflexivity.
  - apply IH.
Qed.

Lemma mkdir_from_above_existing fs rest here (c : str) (n : node) :
  Os.stat_from fs here (rest ++ [c]) = Ok n ->
  Os.mkdir_from here rest fs = (fs, Ok tt).
Proof.
  revert here. induction rest as [|d rest IH]; intros here;
    cbn [app Os.stat_from Os.mkdir_from];
    destruct (Os.node_at fs here) as [[|content]|]; try discriminate.
  - reflexivity.
  - apply IH.
Qed.

Lemma mkdir_parent_of_existing fs p (n : node) :
  Os.stat fs p = Ok n ->
  Os.mkdir_parents (Pathlib.parent p) fs = (fs, Ok tt).
Proof.
  unfold Os.stat, Os.mkdir_parents, Pathlib.parent.
  destruct (decide (p = [])) as [->|Hne]; [reflexivity|].
  rewrite (app_removelast_last [] Hne) at 1.
  apply mkdir_from_above_existing.
Qed.

Lemma make_file_existing fs base_dir p (n : node) :
  Os.stat fs p = Ok n -> make_file base_dir p fs = (fs, Ok tt).
Proof.
  intros Hstat. unfold make_file.
  unfold mbind at 1. unfold io_bind.
  rewrite (mkdir_parent_of_existing fs p n Hstat).
  unfold mbind, io_bind, Os.path_exists. rewrite Hstat. reflexivity.
Qed.

End Materializer.

(** C9, as stated: with [README.md] and [src] already there, the run leaves
    the file's contents alone and prints no failure, and yet both are in
    the created lists. *)
Lemma existing_items_are_counted :
  let w := create_structure [] sample_disk
             [(py "README.md", file); (py "src", dir)] (Some [py "proj"]) in
  disk w = sample_disk
  /\ printed w = [CreatedFile (py "README.md"); CreatedDirectory (py "src")]
  /\ ~ lists_only_new [] sample_disk
         [(py "README.md", file); (py "src", dir)] (Some [py "proj"]).
Proof.
  split; [vm_compute; reflexivity|]. split; [vm_compute; reflexivity|].
  intros H. specialize (H [py "proj"; py "README.md"]).
  assert (Hstat : Os.stat sample_disk [py "proj"; py "README.md"]
                  = Ok (Regular (py "mine"))) by (vm_compute; reflexivity).
  rewrite Hstat in H. discriminate H.
  apply list_elem_of_In. vm_compute. right. left. reflexivity.
Qed.

(** C9, amended: a file entry whose target already exists leaves the whole
    file system as it was, is printed as created and not as a failure, and
    its path is appended to the created files; an existing directory is
    likewise left alone and appended to the created directories.  The
    lists hold every entry whose operations raised nothing. *)
Theorem existing_items_kept_and_listed (base_dir : list (list N)) (w : world)
    (p : str) (n : node) :
  Os.stat (disk w) (Pathlib.truediv base_dir p) = Ok n ->
  create_entry base_dir w (p, file)
  = World (disk w)
          (Created (dirs (summary w))
                   (files (summary w)
                    ++ [Pathlib.to_str (Pathlib.truediv base_dir p)]))
          (printed w ++ [CreatedFile p])
  /\ (n = Directory ->
      create_entry base_dir w (p, dir)
      = World (disk w)
              (Created (dirs (summary w)
                        ++ [Pathlib.to_str (Pathlib.truediv base_dir p)])
                       (files (summary w)))
              (printed w ++ [CreatedDirectory p])).
Proof.
  intros Hstat. split.
  - unfold create_entry.
    rewrite (make_file_existing _ base_dir _ n Hstat). reflexivity.
  - intros ->. unfold create_entry, make_dir, Os.mkdir_parents.
    rewrite (mkdir_from_existing_dir _ _ _ Hstat). reflexivity.
Qed.

Lemma existing_items_kept_and_listed_witness :
  create_entry [py "proj"] (World sample_disk (Created [] []) [])
    (py "README.md", file)
  = World sample_disk (Created [] [py "/proj/README.md"])
          [CreatedFile (py "README.md")].
Proof.
  refine (proj1 (existing_items_kept_and_listed [py "proj"]
                   (World sample_disk (Created [] []) [])
                   (py "README.md") (Regular (py "mine")) _)).
  vm_compute. reflexivity.
Defined.

(** * Further properties of the parser *)

(** ** Order of the output *)

Lemma step_paths (st : state) (raw : str) :
  exists new : list entry,
    paths (step st raw) = paths st ++ new
    /\ map snd new = match emits raw with Some k => [k] | None => [] end.
Proof.
  unfold step, emits, line_label.
  destruct (line_parts raw) as [[indent_part item]|];
    cbn [fmap option_fmap option_map snd];
    [|exists []; rewrite app_nil_r; split; reflexivity].
  destruct (label_of item) as [|c label];
    [exists []; rewrite app_nil_r; split; reflexivity|].
  destruct (Py.endswith (c :: label) (ord "/")); cbn [paths];
    eexists; split; reflexivity.
Qed.

Lemma fold_paths (lines : list str) (st : state) :
  exists new : list entry,
    paths (fold_left step lines st) = paths st ++ new
    /\ map snd new = omap emits lines.
Proof.
  revert st. induction lines as [|raw rest IH]; intros st; cbn [fold_left].
  - exists []. rewrite app_nil_r. split; reflexivity.
  - destruct (IH (step st raw)) as (new2 & Hp2 & Hk2).
    destruct (step_paths st raw) as (new1 & Hp1 & Hk1).
    exists (new1 ++ new2). split.
    + rewrite Hp2, Hp1, app_assoc. reflexivity.
    + rewrite List.map_app. unfold entry in *. rewrite Hk1, Hk2.
      cbn [omap list_omap].
      destruct (emits raw); reflexivity.
Qed.

(** X1: parsing composes and only ever appends: the entries of the first
    lines of a file are a prefix of the entries of the whole file, and the
    rest of the file is parsed from the state the first lines leave. *)
Theorem entries_only_appended (l1 l2 : list str) :
  exists st1 st2,
    parse_lines initial l1 = Ok st1
    /\ parse_lines st1 l2 = Ok st2
    /\ parse_lines initial (l1 ++ l2) = Ok st2
    /\ paths st1 `prefix_of` paths st2.
Proof.
  exists (fold_left step l1 initial),
         (fold_left step l2 (fold_left step l1 initial)).
  rewrite !parse_lines_fold, fold_left_app. repeat split.
  destruct (fold_paths l2 (fold_left step l1 initial)) as (new & -> & _).
  apply prefix_app_r. reflexivity.
Qed.

(** X2: the output holds one entry for each line that has a non-empty
    label, in the order of the lines, a directory entry where the label
    ends with [/] and a file entry otherwise. *)
Theorem one_entry_per_labelled_line (lines : list str) :
  exists st,
    parse_lines initial lines = Ok st
    /\ map snd (paths st) = omap emits lines.
Proof.
  exists (fold_left step lines initial). split; [apply parse_lines_fold|].
  destruct (fold_paths lines initial) as (new & -> & <-). reflexivity.
Qed.

(** X3: a skipped line (empty, dashes and spaces, or a code fence) can be
    put anywhere in the input, or taken out, without changing the result. *)
Theorem skipped_line_can_be_dropped (st : state) (l1 l2 : list str)
    (raw : str) :
  is_skipped (Py.rstrip raw) = true ->
  parse_lines st (l1 ++ raw :: l2) = parse_lines st (l1 ++ l2).
Proof.
  intros Hskip. rewrite !parse_lines_fold, !fold_left_app. cbn [fold_left].
  do 2 f_equal. unfold step, line_parts. rewrite Hskip. reflexivity.
Qed.

Lemma skipped_line_can_be_dropped_witness :
  parse_lines initial ([py "a/"] ++ py "- - -" :: [py "  b.py"])
  = parse_lines initial ([py "a/"] ++ [py "  b.py"]).
Proof.
  apply (skipped_line_can_be_dropped initial [py "a/"] [py "  b.py"]
           (py "- - -")).
  vm_compute. reflexivity.
Defined.

(** ** The depth formula *)

Lemma is_glyph_cases (c : N) :
  is_glyph c = true -> c = VERT \/ c = TEE \/ c = CORNER \/ c = HORIZ.
Proof.
  unfold is_glyph. rewrite !orb_true_iff, !N.eqb_eq. tauto.
Qed.

Lemma filter_cons_bool (f : N -> bool) (c : N) (r : str) :
  filter f (c :: r) = if f c then c :: filter f r else filter f r.
Proof.
  destruct (f c) eqn:E.
  - apply filter_cons_True. rewrite E. exact I.
  - apply filter_cons_False. rewrite E. exact id.
Qed.

Lemma count_glyphs (s : str) :
  (Py.count s VERT + Py.count s TEE + Py.count s CORNER + Py.count s HORIZ
   = glyph_count s)%Z.
Proof.
  unfold Py.count, glyph_count, Py.len.
  induction s as [|c r IH]; [reflexivity|].
  rewrite !filter_cons_bool. unfold is_glyph at 1.
  destruct (c =? VERT) eqn:E1, (c =? TEE) eqn:E2, (c =? CORNER) eqn:E3,
    (c =? HORIZ) eqn:E4;
    rewrite ?N.eqb_eq in *; try (subst; discriminate);
    cbn [orb length] in *; lia.
Qed.

Lemma remove_glyphs (s : str) :
  Py.remove (Py.remove (Py.remove (Py.remove s VERT) TEE) CORNER) HORIZ
  = filter (fun c => negb (is_glyph c)) s.
Proof.
  unfold Py.remove. induction s as [|c r IH]; [reflexivity|].
  rewrite (filter_cons_bool (fun c => negb (is_glyph c))).
  rewrite (filter_cons_bool (fun d => negb (d =? VERT))).
  unfold is_glyph at 1.
  destruct (c =? VERT); cbn [negb orb]; [exact IH|].
  rewrite (filter_cons_bool (fun d => negb (d =? TEE))).
  destruct (c =? TEE); cbn [negb orb]; [exact IH|].
  rewrite (filter_cons_bool (fun d => negb (d =? CORNER))).
  destruct (c =? CORNER); cbn [negb orb]; [exact IH|].
  rewrite (filter_cons_bool (fun d => negb (d =? HORIZ))).
  destruct (c =? HORIZ); cbn [negb orb]; [exact IH|].
  f_equal. exact IH.
Qed.

Lemma glyphs_and_others (s : str) :
  (glyph_count s + Py.len (filter (fun c => negb (is_glyph c)) s)
   = Py.len s)%Z.
Proof.
  unfold glyph_count, Py.len. induction s as [|c r IH]; [reflexivity|].
  rewrite (filter_cons_bool is_glyph),
    (filter_cons_bool (fun c => negb (is_glyph c))).
  destruct (is_glyph c); cbn [negb length]; lia.
Qed.

(** X4: the depth of an indentation prefix is its number of glyphs plus
    half the number of its other characters, rounded down: a glyph counts
    for a whole level, any other character (space, tab) for half of one.
    So the depth lies between half the length of the prefix and its
    length, and [n] spaces alone give depth [n / 2]. *)
Theorem depth_of_formula (indent_part : str) :
  (depth_of indent_part
   = glyph_count indent_part
     + (Py.len indent_part - glyph_count indent_part) / 2)%Z
  /\ (Py.len indent_part / 2 <= depth_of indent_part <= Py.len indent_part)%Z
  /\ (glyph_count indent_part = 0
      -> depth_of indent_part = Py.len indent_part / 2)%Z.
Proof.
  assert (Hform : (depth_of indent_part
                   = glyph_count indent_part
                     + (Py.len indent_part - glyph_count indent_part) / 2)%Z).
  { unfold depth_of. rewrite count_glyphs, remove_glyphs.
    do 2 f_equal. pose proof (glyphs_and_others indent_part). lia. }
  pose proof (glyphs_and_others indent_part) as Hsum.
  assert (Hg : (0 <= glyph_count indent_part)%Z)
    by (unfold glyph_count, Py.len; lia).
  split; [exact Hform|]. split;
    [|intros H0; rewrite Hform, H0, Z.sub_0_r; reflexivity].
  rewrite Hform.
  set (g := glyph_count indent_part) in *.
  set (n := Py.len indent_part) in *.
  assert (Hgn : (g <= n)%Z) by (unfold Py.len in Hsum; lia).
  clearbody g n. Z.div_mod_to_equations. lia.
Qed.

Lemma depth_of_formula_witness :
  depth_of (py "     ") = (Py.len (py "     ") / 2)%Z.
Proof.
  apply (proj2 (proj2 (depth_of_formula (py "     ")))).
  vm_compute. reflexivity.
Defined.

(** ** The two patterns *)

Lemma dotstar_newline_free (s : str) :
  newline_free s = true -> Re.dotstar_end s = Some s.
Proof.
  induction s as [|c r IH]; [reflexivity|].
  cbn [newline_free forallb Re.dotstar_end].
  intros [Hc Hr]%andb_true_iff. apply negb_true_iff in Hc. rewrite Hc.
  unfold newline_free in IH. rewrite (IH Hr). reflexivity.
Qed.

Lemma star_then_none (cls : N -> bool) (k : str -> option str) (s : str) :
  Re.star_then cls k s = None -> k s = None.
Proof.
  destruct s as [|c r]; cbn [Re.star_then].
  - destruct (k []); [discriminate|reflexivity].
  - destruct (cls c); [destruct (Re.star_then cls k r) as [[g1 g2]|];
                       [discriminate|]|];
      destruct (k (c :: r)); (discriminate || reflexivity).
Qed.

Lemma star_then_some (cls : N -> bool) (k : str -> option str) (s g1 g2 : str) :
  Re.star_then cls k s = Some (g1, g2) ->
  forallb cls g1 = true /\ exists rest, s = g1 ++ rest /\ k rest = Some g2.
Proof.
  revert g1. induction s as [|c r IH]; intros g1; cbn [Re.star_then].
  - destruct (k []) as [g|] eqn:Hk; [|discriminate].
    intros [= <- <-]. split; [reflexivity|]. exists []. split; [reflexivity|].
    exact Hk.
  - assert (Hstop : pair [] <$> k (c :: r) = Some (g1, g2) ->
                    forallb cls g1 = true
                    /\ exists rest, c :: r = g1 ++ rest /\ k rest = Some g2).
    { destruct (k (c :: r)) as [g|] eqn:Hk; [|discriminate].
      intros [= <- <-]. split; [reflexivity|]. exists (c :: r).
      split; [reflexivity|exact Hk]. }
    destruct (cls c) eqn:Hc; [|exact Hstop].
    destruct (Re.star_then cls k r) as [[h1 h2]|] eqn:Hrec; [|exact Hstop].
    intros [= <- <-]. destruct (IH h1 eq_refl) as (Hall & rest & -> & Hk).
    split; [cbn [forallb]; rewrite Hc, Hall; reflexivity|].
    exists rest. split; [reflexivity|exact Hk].
Qed.

(** X5: when the first pattern matches a line without a line feed, its two
    groups make up the line: group 1 holds only glyphs and whitespace, and
    group 2 begins with a character that is not a glyph. *)
Theorem match_tree_splits_line (line g1 g2 : str) :
  newline_free line = true ->
  Re.match_tree line = Some (g1, g2) ->
  line = g1 ++ g2
  /\ forallb is_indent g1 = true
  /\ exists c r, g2 = c :: r /\ is_glyph c = false.
Proof.
  intros Hfree Hmatch. unfold Re.match_tree in Hmatch.
  apply star_then_some in Hmatch as (Hall & rest & -> & Hk).
  unfold Re.label_then_end in Hk. destruct rest as [|c r]; [discriminate|].
  destruct (is_glyph c) eqn:Hc; [discriminate|].
  assert (Hr : newline_free r = true).
  { unfold newline_free in *. rewrite forallb_app in Hfree.
    apply andb_true_iff in Hfree as [_ Hfree]. cbn [forallb] in Hfree.
    apply andb_true_iff in Hfree as [_ Hfree]. exact Hfree. }
  rewrite (dotstar_newline_free r Hr) in Hk. injection Hk as <-.
  split; [reflexivity|]. split; [exact Hall|]. exists c, r.
  split; [reflexivity|exact Hc].
Qed.

Lemma match_tree_splits_line_witness :
  py "│   └── main.py" = py "│   └── " ++ py "main.py".
Proof.
  apply (match_tree_splits_line (py "│   └── main.py") (py "│   └── ")
           (py "main.py")); vm_compute; reflexivity.
Defined.

(** X6: the indentation prefix is the longest leading run of glyphs and
    whitespace whenever another character follows it: a line made of such
    a run [ind], a character [c] outside the class and a rest [r] is split
    into [ind] and [c :: r]. *)
Theorem match_tree_takes_longest_run (ind r : str) (c : N) :
  forallb is_indent ind = true ->
  is_indent c = false ->
  newline_free r = true ->
  Re.match_tree (ind ++ c :: r) = Some (ind, c :: r).
Proof.
  intros Hind Hc Hr. unfold Re.match_tree.
  change (fun c0 => is_glyph c0 || Py.isspace c0) with is_indent.
  induction ind as [|i ind IH]; cbn [app Re.star_then].
  - rewrite Hc. unfold Re.label_then_end.
    unfold is_indent in Hc. apply orb_false_iff in Hc as [-> _].
    rewrite (dotstar_newline_free r Hr). reflexivity.
  - cbn [forallb] in Hind. apply andb_true_iff in Hind as [-> Hind].
    rewrite (IH Hind). reflexivity.
Qed.

Lemma match_tree_takes_longest_run_witness :
  Re.match_tree (py "├── " ++ ord "s" :: py "rc/")
  = Some (py "├── ", ord "s" :: py "rc/").
Proof.
  apply match_tree_takes_longest_run; vm_compute; reflexivity.
Defined.

(** X7: on a line without a line feed the first pattern fails exactly when
    every character of the line is a glyph: the second pattern, meant for
    lines without tree characters, is only ever used for lines made of
    nothing else. *)
Theorem fallback_only_for_glyph_lines (line : str) :
  newline_free line = true ->
  Re.match_tree line = None <-> forallb is_glyph line = true.
Proof.
  intros Hfree. unfold Re.match_tree. split.
  - induction line as [|c r IH]; [reflexivity|]. intros Hnone.
    cbn [newline_free forallb] in Hfree.
    apply andb_true_iff in Hfree as [_ Hr].
    pose proof (star_then_none _ _ _ Hnone) as Hk.
    unfold Re.label_then_end in Hk.
    destruct (is_glyph c) eqn:Hc;
      [|rewrite (dotstar_newline_free r Hr) in Hk; discriminate].
    cbn [forallb]. rewrite Hc. cbn [andb]. apply (IH Hr).
    cbn [Re.star_then] in Hnone. rewrite Hc in Hnone. cbn [orb] in Hnone.
    destruct (Re.star_then _ _ r) as [[g1 g2]|]; [discriminate|reflexivity].
  - clear Hfree. induction line as [|c r IH]; [reflexivity|].
    cbn [forallb]. intros [Hc Hr]%andb_true_iff.
    cbn [Re.star_then]. rewrite Hc, (IH Hr). cbn [orb].
    unfold Re.label_then_end. rewrite Hc. reflexivity.
Qed.

Lemma fallback_only_for_glyph_lines_witness :
  Re.match_tree (py "└──") = None <-> forallb is_glyph (py "└──") = true.
Proof.
  apply fallback_only_for_glyph_lines. vm_compute. reflexivity.
Defined.

(** ** Lines as they are read *)

Lemma readlines_shape_bounded (n : nat) (text : str) :
  (length text <= n)%nat -> Forall read_shape (readlines text).
Proof.
  revert text. induction n as [|n IH]; intros text Hlen.
  - destruct text; [constructor|cbn in Hlen; lia].
  - destruct text as [|c rest]; [constructor|]. cbn [length] in Hlen.
    assert (Hnl : read_shape [10]).
    { exists []. split; [reflexivity|]. right. reflexivity. }
    cbn [readlines]. destruct (c =? 10) eqn:Hc10.
    { constructor; [exact Hnl|]. apply IH. lia. }
    destruct (c =? 13) eqn:Hc13.
    { destruct rest as [|d rest']; [repeat constructor; exact Hnl|].
      cbn [length] in Hlen.
      destruct (d =? 10); (constructor; [exact Hnl|]); apply IH;
        cbn [length]; lia. }
    pose proof (IH rest ltac:(lia)) as Hrest.
    destruct (readlines rest) as [|l ls].
    { repeat constructor. exists [c]. split; [|left; reflexivity].
      cbn [newline_free forallb]. rewrite Hc10. reflexivity. }
    apply Forall_cons in Hrest as [(body & Hbody & Hl) Hls].
    constructor; [|exact Hls]. exists (c :: body). split.
    + cbn [newline_free forallb]. rewrite Hc10. exact Hbody.
    + destruct Hl as [-> | ->]; [left|right]; reflexivity.
Qed.

Lemma readlines_shape (text : str) : Forall read_shape (readlines text).
Proof. apply (readlines_shape_bounded (length text)). lia. Qed.

Lemma lstrip_forallb (f : N -> bool) (s : str) :
  forallb f s = true -> forallb f (Py.lstrip s) = true.
Proof.
  induction s as [|c r IH]; [reflexivity|]. intros H. cbn [Py.lstrip].
  destruct (Py.isspace c); [|exact H].
  cbn [forallb] in H. apply andb_true_iff in H as [_ H]. exact (IH H).
Qed.

Lemma forallb_rev_true (f : N -> bool) (s : str) :
  forallb f s = true -> forallb f (rev s) = true.
Proof.
  rewrite !List.forallb_forall. intros H x Hx. apply H.
  apply in_rev. exact Hx.
Qed.

Lemma rstrip_forallb (f : N -> bool) (s : str) :
  forallb f s = true -> forallb f (Py.rstrip s) = true.
Proof.
  intros H. unfold Py.rstrip.
  apply forallb_rev_true, lstrip_forallb, forallb_rev_true. exact H.
Qed.

Lemma rstrip_read_shape (raw : str) :
  read_shape raw -> newline_free (Py.rstrip raw) = true.
Proof.
  intros (body & Hbody & [-> | ->]).
  - apply rstrip_forallb. exact Hbody.
  - unfold Py.rstrip. rewrite rev_unit. cbn [Py.lstrip].
    change (Py.isspace 10) with true. cbn iota.
    apply (rstrip_forallb _ body Hbody).
Qed.

Lemma split_indent_newline_free (line : str) :
  newline_free line = true -> split_indent line <> None.
Proof.
  intros Hfree Hnone. unfold split_indent in Hnone.
  destruct (Re.match_tree line) as [[g1 g2]|]; [discriminate|].
  destruct (Re.match_plain line) as [[g1 g2]|] eqn:Hplain; [discriminate|].
  apply star_then_none in Hplain.
  rewrite (dotstar_newline_free line Hfree) in Hplain. discriminate.
Qed.

(** X8: for every line read from a file, the only way to be discarded
    before a depth is computed is the skip rule: one of the two patterns
    always matches, so the [continue] after the second pattern is never
    reached. *)
Theorem read_line_is_skipped_or_matched (text raw : str) :
  raw ∈ readlines text ->
  line_parts raw = None <-> is_skipped (Py.rstrip raw) = true.
Proof.
  intros Hin. unfold line_parts.
  pose proof (readlines_shape text) as Hshape.
  rewrite Forall_forall in Hshape. specialize (Hshape raw Hin).
  apply rstrip_read_shape in Hshape.
  destruct (is_skipped (Py.rstrip raw)); [tauto|].
  split; [|discriminate]. intros Hnone.
  apply split_indent_newline_free in Hshape. contradiction.
Qed.

Lemma read_line_is_skipped_or_matched_witness :
  line_parts (py "  b/" ++ [10]) = None
  <-> is_skipped (Py.rstrip (py "  b/" ++ [10])) = true.
Proof.
  apply (read_line_is_skipped_or_matched (py "a/" ++ [10] ++ py "  b/" ++ [10])).
  apply list_elem_of_In. vm_compute. right. left. reflexivity.
Defined.

(** ** Open ancestors *)

Lemma step_ancestors (st : state) (raw : str) :
  ancestors_listed st -> ancestors_listed (step st raw).
Proof.
  unfold ancestors_listed, step. intros Hst.
  destruct (line_parts raw) as [[indent_part item]|]; [|exact Hst].
  set (cur := keep (depth_of indent_part) (current_path st)).
  assert (Hkeep : forall t, t <> [] -> t `suffix_of` cur ->
                            (joined t, dir) ∈ paths st).
  { intros t Hne Ht. apply Hst; [exact Hne|].
    etransitivity; [exact Ht|]. apply suffix_drop. }
  destruct (label_of item) as [|c label]; [exact Hkeep|].
  destruct (Py.endswith (c :: label) (ord "/")); cbn [current_path paths].
  - intros t Hne Ht. apply elem_of_app.
    destruct t as [|x t]; [contradiction|].
    apply suffix_cons_inv in Ht as [-> | Ht].
    + right. apply list_elem_of_here.
    + left. apply Hkeep; assumption.
  - intros t Hne Ht. apply elem_of_app. left. apply Hkeep; assumption.
Qed.

(** X9: a directory is emitted before anything below it: after any lines,
    every non-empty tail of the stack, joined with [/], is a directory
    entry that is already in the output. *)
Theorem open_ancestors_are_listed (lines : list str) :
  exists st, parse_lines initial lines = Ok st /\ ancestors_listed st.
Proof.
  exists (fold_left step lines initial). split; [apply parse_lines_fold|].
  assert (H : forall st, ancestors_listed st ->
                         ancestors_listed (fold_left step lines st)).
  { induction lines as [|raw rest IH]; intros st Hst; cbn [fold_left];
      [exact Hst|]. apply IH, step_ancestors, Hst. }
  apply H. intros t Hne Ht. cbn [initial current_path] in Ht.
  apply suffix_nil_inv in Ht. contradiction.
Qed.

(** ** Characters of the paths *)

Lemma split_hd_free (sep : N) (s : str) :
  forallb (fun c => negb (c =? sep)) (hd [] (Py.split sep s)) = true.
Proof.
  induction s as [|c r IH]; [reflexivity|]. cbn [Py.split].
  destruct (c =? sep) eqn:Hc; [reflexivity|].
  destruct (Py.split sep r) as [|h t]; cbn [hd forallb] in *;
    rewrite Hc; [reflexivity|exact IH].
Qed.

Lemma strip_forallb (f : N -> bool) (s : str) :
  forallb f s = true -> forallb f (Py.strip s) = true.
Proof. intros H. apply rstrip_forallb, lstrip_forallb, H. Qed.

Lemma removelast_forallb (f : N -> bool) (s : str) :
  forallb f s = true -> forallb f (removelast s) = true.
Proof.
  induction s as [|c r IH]; [reflexivity|]. cbn [forallb removelast].
  intros [Hc Hr]%andb_true_iff. destruct r as [|d r]; [reflexivity|].
  cbn [forallb]. rewrite Hc. exact (IH Hr).
Qed.

Lemma join_forallb (f : N -> bool) (sep : N) (l : list str) :
  f sep = true ->
  Forall (fun s => forallb f s = true) l ->
  forallb f (Py.join sep l) = true.
Proof.
  intros Hsep. induction l as [|x r IH]; [reflexivity|].
  intros [Hx Hr]%Forall_cons. cbn [Py.join].
  destruct r as [|y r]; [exact Hx|].
  rewrite forallb_app. cbn [forallb]. rewrite Hx, Hsep. exact (IH Hr).
Qed.

Lemma label_hash_free (item : str) : hash_free (label_of item) = true.
Proof. apply strip_forallb, split_hd_free. Qed.

Lemma joined_hash_free (cur : list str) :
  Forall (fun s => hash_free s = true) cur -> hash_free (joined cur) = true.
Proof.
  intros H. apply join_forallb; [reflexivity|].
  apply List.Forall_rev. exact H.
Qed.

Lemma step_hash_free (st : state) (raw : str) :
  Forall (fun s => hash_free s = true) (current_path st)
  /\ Forall (fun e : entry => hash_free e.1 = true) (paths st) ->
  Forall (fun s => hash_free s = true) (current_path (step st raw))
  /\ Forall (fun e : entry => hash_free e.1 = true) (paths (step st raw)).
Proof.
  unfold step. intros [Hcur Hpaths].
  destruct (line_parts raw) as [[indent_part item]|]; [|split; assumption].
  assert (Hkeep : Forall (fun s => hash_free s = true)
                         (keep (depth_of indent_part) (current_path st)))
    by (apply Forall_drop; assumption).
  pose proof (label_hash_free item) as Hlabel.
  destruct (label_of item) as [|c label]; [split; assumption|].
  destruct (Py.endswith (c :: label) (ord "/")); cbn [current_path paths].
  - assert (Hall : Forall (fun s => hash_free s = true)
                     (Py.but_last (c :: label)
                      :: keep (depth_of indent_part) (current_path st))).
    { apply Forall_cons. split; [|assumption].
      apply removelast_forallb. exact Hlabel. }
    split; [assumption|]. apply Forall_app. split; [assumption|].
    apply Forall_singleton. apply joined_hash_free. assumption.
  - split; [assumption|]. apply Forall_app. split; [assumption|].
    apply Forall_singleton. apply joined_hash_free.
    apply Forall_cons. split; assumption.
Qed.

(** X10: a comment never reaches a path: no entry of the output contains
    the character [#]. *)
Theorem no_hash_in_paths (lines : list str) :
  exists st,
    parse_lines initial lines = Ok st
    /\ Forall (fun e : entry => hash_free e.1 = true) (paths st).
Proof.
  exists (fold_left step lines initial). split; [apply parse_lines_fold|].
  assert (H : forall st,
             Forall (fun s => hash_free s = true) (current_path st)
             /\ Forall (fun e : entry => hash_free e.1 = true) (paths st) ->
             Forall (fun e : entry => hash_free e.1 = true)
                    (paths (fold_left step lines st))).
  { induction lines as [|raw rest IH]; intros st Hst; cbn [fold_left];
      [exact (proj2 Hst)|]. apply IH, step_hash_free, Hst. }
  apply H. split; constructor.
Qed.

(** ** File entries *)

Lemma join_snoc_last (sep : N) (l : list str) (x : str) :
  x <> [] -> last (Py.join sep (l ++ [x])) = last x.
Proof.
  intros Hx. induction l as [|y r IH]; [reflexivity|].
  change ((y :: r) ++ [x]) with (y :: (r ++ [x])). cbn [Py.join].
  destruct (r ++ [x]) as [|z t] eqn:E; [destruct r; discriminate|].
  rewrite last_app_cons, last_cons, IH.
  destruct (last x) eqn:El; [reflexivity|].
  apply last_None in El. contradiction.
Qed.

Lemma step_names_files (st : state) (raw : str) :
  Forall names_a_file (paths st) -> Forall names_a_file (paths (step st raw)).
Proof.
  unfold step. intros Hpaths.
  destruct (line_parts raw) as [[indent_part item]|]; [|assumption].
  destruct (label_of item) as [|c label]; [assumption|].
  destruct (Py.endswith (c :: label) (ord "/")) eqn:Hend; cbn [paths];
    apply Forall_app; (split; [assumption|]); apply Forall_singleton.
  - exact I.
  - unfold names_a_file. cbn [fst snd].
    assert (Hlast : last (joined
                            (((c :: label) : str)
                             :: keep (depth_of indent_part) (current_path st)))
                    = last (c :: label)).
    { unfold joined. cbn [rev]. apply join_snoc_last. discriminate. }
    split.
    + intros Hnil. rewrite Hnil in Hlast. cbn [last] in Hlast.
      symmetry in Hlast. apply last_None in Hlast. discriminate.
    + unfold Py.endswith in *. rewrite Hlast. exact Hend.
Qed.

(** X11: every file entry names something: its path is not empty and does
    not end with [/]. *)
Theorem file_entries_name_files (lines : list str) :
  exists st,
    parse_lines initial lines = Ok st /\ Forall names_a_file (paths st).
Proof.
  exists (fold_left step lines initial). split; [apply parse_lines_fold|].
  assert (H : forall st, Forall names_a_file (paths st) ->
                         Forall names_a_file
                                (paths (fold_left step lines st))).
  { induction lines as [|raw rest IH]; intros st Hst; cbn [fold_left];
      [exact Hst|]. apply IH, step_names_files, Hst. }
  apply H. constructor.
Qed.

(** ** Lines of glyphs only *)

Lemma glyph_is_plain (c : N) :
  is_glyph c = true ->
  Py.isspace c = false /\ (c =? 10) = false /\ (c =? ord "#") = false
  /\ (c =? ord "/") = false /\ (c =? ord "`") = false
  /\ c <> ord "-" /\ c <> ord " ".
Proof.
  intros H. destruct (is_glyph_cases c H) as [-> | [-> | [-> | ->]]];
    repeat split; (reflexivity || discriminate).
Qed.

Lemma rstrip_kept (s : str) (c : N) :
  last s = Some c -> Py.isspace c = false -> Py.rstrip s = s.
Proof.
  intros Hlast Hc. apply last_Some in Hlast as [l ->].
  unfold Py.rstrip. rewrite rev_unit. cbn [Py.lstrip]. rewrite Hc.
  change (c :: rev l) with ([c] ++ rev l).
  rewrite rev_app_distr, rev_involutive. reflexivity.
Qed.

Lemma split_without_sep (sep : N) (s : str) :
  forallb (fun c => negb (c =? sep)) s = true -> Py.split sep s = [s].
Proof.
  induction s as [|c r IH]; [reflexivity|].
  cbn [forallb Py.split]. intros [Hc Hr]%andb_true_iff.
  apply negb_true_iff in Hc. rewrite Hc, (IH Hr). reflexivity.
Qed.

Lemma forallb_weaken (f g : N -> bool) (s : str) :
  (forall c, f c = true -> g c = true) ->
  forallb f s = true -> forallb g s = true.
Proof.
  intros Hfg. rewrite !List.forallb_forall. intros H x Hx.
  apply Hfg, H, Hx.
Qed.

Lemma match_tree_of_glyphs (line : str) :
  forallb is_glyph line = true -> Re.match_tree line = None.
Proof.
  unfold Re.match_tree. induction line as [|c r IH]; [reflexivity|].
  cbn [forallb]. intros [Hc Hr]%andb_true_iff.
  cbn [Re.star_then]. rewrite Hc, (IH Hr). cbn [orb].
  unfold Re.label_then_end. rewrite Hc. reflexivity.
Qed.

Lemma glyph_line_parts (line : str) :
  line <> [] -> forallb is_glyph line = true ->
  line_parts line = Some ([], line).
Proof.
  intros Hne Hall.
  destruct line as [|c r] eqn:Eline; [contradiction|]. rewrite <- Eline in *.
  assert (Hc : is_glyph c = true).
  { rewrite Eline in Hall. cbn [forallb] in Hall.
    apply andb_true_iff in Hall as [Hc _]. exact Hc. }
  destruct (glyph_is_plain c Hc) as (Hsp & _ & _ & _ & Htick & Hdash & Hblank).
  assert (Hlast : exists d, last line = Some d /\ is_glyph d = true).
  { destruct (last line) as [d|] eqn:El;
      [|apply last_None in El; contradiction].
    exists d. split; [reflexivity|].
    apply last_Some_elem_of, list_elem_of_In in El.
    rewrite List.forallb_forall in Hall. apply Hall, El. }
  destruct Hlast as (d & Hlast & Hd).
  assert (Hr : Py.rstrip line = line).
  { apply (rstrip_kept line d Hlast). apply (glyph_is_plain d Hd). }
  assert (Hl : Py.lstrip line = line)
    by (rewrite Eline; cbn [Py.lstrip]; rewrite Hsp; reflexivity).
  assert (Hfree : newline_free line = true).
  { apply (forallb_weaken is_glyph); [|exact Hall].
    intros x Hx. apply negb_true_iff. apply (glyph_is_plain x Hx). }
  unfold line_parts. rewrite Hr.
  assert (Hskip : is_skipped line = false).
  { destruct (is_skipped line) eqn:E; [|reflexivity].
    apply is_skipped_iff in E as [E | [(Hset & _) | E]].
    - contradiction.
    - assert (Hin : c ∈ line) by (rewrite Eline; apply list_elem_of_here).
      destruct (Hset c Hin); contradiction.
    - rewrite Eline in E. cbn [Py.startswith] in E. rewrite Htick in E.
      discriminate. }
  rewrite Hskip. unfold split_indent.
  rewrite (match_tree_of_glyphs line Hall).
  unfold Re.match_plain. rewrite Eline at 1. cbn [Re.star_then].
  rewrite Hsp, <- Eline, (dotstar_newline_free line Hfree).
  cbn [fmap option_fmap option_map]. unfold Py.strip. rewrite Hl, Hr.
  reflexivity.
Qed.

(** X12: a line made only of box-drawing glyphs is parsed at depth 0 with
    the glyphs as its label: it empties the stack and is emitted as a
    top-level file entry named by the glyphs. *)
Theorem glyph_only_line_is_root_file (st : state) (line : str) :
  line <> [] ->
  forallb is_glyph line = true ->
  line_depth line = Some 0%Z
  /\ parse_line st line = Ok (State (paths st ++ [(line, file)]) []).
Proof.
  intros Hne Hall. pose proof (glyph_line_parts line Hne Hall) as Hparts.
  split; [unfold line_depth; rewrite Hparts; reflexivity|].
  rewrite parse_line_step. unfold step. rewrite Hparts.
  assert (Hlabel : label_of line = line).
  { unfold label_of. rewrite split_without_sep.
    - cbn [hd]. unfold Py.strip.
      destruct line as [|c r] eqn:Eline; [contradiction|].
      rewrite <- Eline in *.
      assert (Hc : is_glyph c = true).
      { rewrite Eline in Hall. cbn [forallb] in Hall.
        apply andb_true_iff in Hall as [Hc _]. exact Hc. }
      assert (Hl : Py.lstrip line = line).
      { rewrite Eline. cbn [Py.lstrip].
        rewrite (proj1 (glyph_is_plain c Hc)). reflexivity. }
      rewrite Hl. destruct (last line) as [d|] eqn:El;
        [|apply last_None in El; contradiction].
      apply (rstrip_kept line d El).
      apply last_Some_elem_of, list_elem_of_In in El.
      rewrite List.forallb_forall in Hall.
      apply (glyph_is_plain d (Hall d El)).
    - apply (forallb_weaken is_glyph); [|exact Hall].
      intros x Hx. apply negb_true_iff. apply (glyph_is_plain x Hx). }
  rewrite Hlabel. destruct line as [|c r] eqn:Eline; [contradiction|].
  rewrite <- Eline in *.
  assert (Hend : Py.endswith line (ord "/") = false).
  { unfold Py.endswith. destruct (last line) as [d|] eqn:El; [|reflexivity].
    apply last_Some_elem_of, list_elem_of_In in El.
    rewrite List.forallb_forall in Hall.
    apply (glyph_is_plain d (Hall d El)). }
  rewrite Hend.
  assert (Hkeep : keep (depth_of []) (current_path st) = []).
  { unfold keep. change (depth_of []) with 0%Z. cbn [Z.to_nat].
    rewrite Nat.sub_0_r. apply drop_all. }
  rewrite Hkeep. reflexivity.
Qed.

Lemma glyph_only_line_is_root_file_witness :
  parse_line (State [(py "a", dir)] [py "a"]) (py "└──")
  = Ok (State ([(py "a", dir)] ++ [(py "└──", file)]) []).
Proof.
  apply (glyph_only_line_is_root_file (State [(py "a", dir)] [py "a"])
           (py "└──")); [discriminate|vm_compute; reflexivity].
Defined.

(** * Further properties of the materializer *)

Section Disk.

Implicit Types (fs : FS) (here p : path) (rest : list str) (n : node).

Lemma node_at_mono fs fs' p n :
  fs ⊆ fs' -> Os.node_at fs p = Some n -> Os.node_at fs' p = Some n.
Proof.
  intros Hsub. destruct p as [|c p]; [trivial|]. cbn [Os.node_at].
  intros H. exact (lookup_weaken _ _ _ _ H Hsub).
Qed.

Lemma node_at_none_insert fs here n :
  Os.node_at fs here = None -> fs ⊆ <[here := n]> fs.
Proof.
  destruct here as [|c here]; [discriminate|]. cbn [Os.node_at].
  intros H. apply insert_subseteq. exact H.
Qed.

Lemma node_at_insert fs here n :
  here <> [] -> Os.node_at (<[here := n]> fs) here = Some n.
Proof.
  destruct here as [|c here]; [contradiction|]. intros _. cbn [Os.node_at].
  apply lookup_insert_eq.
Qed.

Lemma mkdir_from_grows fs fs' here rest (r : result unit) :
  Os.mkdir_from here rest fs = (fs', r) -> fs ⊆ fs'.
Proof.
  revert here fs. induction rest as [|c rest IH]; intros here fs;
    cbn [Os.mkdir_from];
    destruct (Os.node_at fs here) as [[|content]|] eqn:Hnode.
  - intros [= <- _]. reflexivity.
  - intros [= <- _]. reflexivity.
  - intros [= <- _]. apply node_at_none_insert. exact Hnode.
  - apply IH.
  - intros [= <- _]. reflexivity.
  - intros H. apply IH in H. etransitivity; [|exact H].
    apply node_at_none_insert. exact Hnode.
Qed.

Lemma mkdir_from_makes fs fs' here rest :
  Os.mkdir_from here rest fs = (fs', Ok tt) ->
  Os.stat_from fs' here rest = Ok Directory.
Proof.
  revert here fs. induction rest as [|c rest IH]; intros here fs;
    cbn [Os.mkdir_from Os.stat_from];
    destruct (Os.node_at fs here) as [[|content]|] eqn:Hnode.
  - intros [= <-]. rewrite Hnode. reflexivity.
  - discriminate.
  - intros [= <-]. rewrite node_at_insert; [reflexivity|].
    intros ->. discriminate.
  - intros H. pose proof (mkdir_from_grows _ _ _ _ _ H) as Hsub.
    rewrite (node_at_mono _ _ _ _ Hsub Hnode). apply (IH _ _ H).
  - discriminate.
  - intros H. pose proof (mkdir_from_grows _ _ _ _ _ H) as Hsub.
    assert (Hhere : here <> []) by (intros ->; discriminate).
    rewrite (node_at_mono _ _ here Directory Hsub
               (node_at_insert fs here Directory Hhere)).
    apply (IH _ _ H).
Qed.

Lemma stat_from_mono fs fs' here rest n :
  fs ⊆ fs' -> Os.stat_from fs here rest = Ok n ->
  Os.stat_from fs' here rest = Ok n.
Proof.
  intros Hsub. revert here. induction rest as [|c rest IH]; intros here;
    cbn [Os.stat_from];
    destruct (Os.node_at fs here) as [m|] eqn:Hnode; try discriminate;
    rewrite (node_at_mono _ _ _ _ Hsub Hnode); [trivial|].
  destruct m; [apply IH|discriminate].
Qed.


End Disk.

(** ** One line per entry *)

Lemma create_entry_run (base_dir : list (list N)) (w : world) (e : entry) :
  create_entry base_dir w e
  = World (run_entry base_dir (disk w) e).1
          (record base_dir (summary w) (run_entry base_dir (disk w) e).2)
          (printed w ++ [(run_entry base_dir (disk w) e).2]).
Proof.
  destruct e as [p k]. unfold create_entry, run_entry. cbn [fst snd].
  destruct k.
  - destruct (make_dir _ (disk w)) as [fs' [u|x]]; reflexivity.
  - destruct (make_file _ _ (disk w)) as [fs' [u|x]]; reflexivity.
Qed.

Lemma run_entry_path (base_dir : list (list N))
    (fs : gmap (list (list N)) node) (e : entry) :
  report_path (run_entry base_dir fs e).2 = e.1.
Proof.
  destruct e as [p k]. unfold run_entry. cbn [fst snd]. destruct k.
  - destruct (make_dir _ fs) as [fs' [u|x]]; reflexivity.
  - destruct (make_file _ _ fs) as [fs' [u|x]]; reflexivity.
Qed.

Lemma fold_create_reports (base_dir : list (list N)) (paths : list entry)
    (w : world) :
  exists new : list report,
    printed (fold_left (create_entry base_dir) paths w) = printed w ++ new
    /\ map report_path new = map fst paths
    /\ summary (fold_left (create_entry base_dir) paths w)
       = fold_left (record base_dir) new (summary w).
Proof.
  revert w. induction paths as [|e rest IH]; intros w; cbn [fold_left].
  - exists []. rewrite app_nil_r. repeat split.
  - rewrite create_entry_run.
    destruct (IH (World (run_entry base_dir (disk w) e).1
                        (record base_dir (summary w)
                                (run_entry base_dir (disk w) e).2)
                        (printed w ++ [(run_entry base_dir (disk w) e).2])))
      as (new & Hp & Hm & Hs).
    cbn [printed summary] in Hp, Hs.
    exists ((run_entry base_dir (disk w) e).2 :: new). repeat split.
    + rewrite Hp, <- app_assoc. reflexivity.
    + cbn [map]. rewrite run_entry_path, Hm. reflexivity.
    + rewrite Hs. reflexivity.
Qed.

(** X13: every entry is attempted and reported once, in order, whether or
    not an earlier one failed; and the created lists are exactly what the
    printed lines say: a path is appended for each line that reports a
    creation, and for no line that reports a failure. *)
Theorem one_report_per_entry (cwd : list (list N))
    (fs : gmap (list (list N)) node) (paths : list entry)
    (base_dir : option (list (list N))) :
  let w := create_structure cwd fs paths base_dir in
  map report_path (printed w) = map fst paths
  /\ summary w
     = fold_left (record (default cwd base_dir)) (printed w) (Created [] []).
Proof.
  unfold create_structure.
  destruct (fold_create_reports (default cwd base_dir) paths
              (World fs (Created [] []) [])) as (new & Hp & Hm & Hs).
  cbn [printed summary app] in Hp, Hs. cbn zeta. rewrite Hp.
  split; assumption.
Qed.

(** ** New files *)

Section Files.

Implicit Types (fs : FS) (here p base_dir : path) (rest : list str) (n : node).

Lemma io_bind_eq {A B : Type} (m : io A) (f : A -> io B) fs :
  (m ≫= f) fs
  = match m fs with
    | (fs', Ok a) => f a fs'
    | (fs', Raise e) => (fs', Raise e)
    end.
Proof. reflexivity. Qed.

Lemma enter_plain here (c : str) :
  c <> [ord "."; ord "."] -> Os.enter here c = here ++ [c].
Proof.
  intros Hc. unfold Os.enter. rewrite bool_decide_eq_false_2; [reflexivity|].
  exact Hc.
Qed.

Lemma stat_from_snoc_plain fs here rest (c : str) :
  plain_path (rest ++ [c]) = true ->
  Os.stat_from fs here rest = Ok Directory ->
  Os.stat_from fs here (rest ++ [c])
  = match Os.node_at fs (here ++ rest ++ [c]) with
    | Some n => Ok n
    | None => Raise FileNotFoundError
    end.
Proof.
  revert here. induction rest as [|d rest IH]; intros here Hplain Hstat.
  - cbn [app Os.stat_from] in *.
    destruct (Os.node_at fs here) as [[|content]|]; try discriminate.
    cbn [plain_path forallb] in Hplain.
    apply andb_true_iff in Hplain as [Hc _].
    apply negb_true_iff, bool_decide_eq_false in Hc.
    rewrite (enter_plain here c Hc).
    destruct (Os.node_at fs (here ++ [c])); reflexivity.
  - change ((d :: rest) ++ [c]) with (d :: (rest ++ [c])) in *.
    cbn [plain_path forallb] in Hplain.
    apply andb_true_iff in Hplain as [Hd Hplain].
    apply negb_true_iff, bool_decide_eq_false in Hd.
    cbn [Os.stat_from] in *.
    destruct (Os.node_at fs here) as [[|content]|]; try discriminate.
    rewrite (enter_plain here d Hd) in *.
    rewrite (IH (here ++ [d]) Hplain Hstat), <- app_assoc. reflexivity.
Qed.

Lemma stat_plain fs p :
  plain_path p = true -> p <> [] ->
  Os.stat fs (Pathlib.parent p) = Ok Directory ->
  Os.stat fs p = match Os.node_at fs p with
                 | Some n => Ok n
                 | None => Raise FileNotFoundError
                 end.
Proof.
  intros Hplain Hne Hparent. unfold Os.stat, Pathlib.parent in *.
  rewrite (app_removelast_last [] Hne) in Hplain |- * at 1.
  rewrite (stat_from_snoc_plain fs [] _ _ Hplain Hparent).
  cbn [app]. rewrite <- (app_removelast_last [] Hne). reflexivity.
Qed.

Lemma make_file_cases base_dir p fs :
  plain_path p = true ->
  match Os.mkdir_parents (Pathlib.parent p) fs with
  | (fs1, Raise x) => make_file base_dir p fs = (fs1, Raise x)
  | (fs1, Ok _) =>
      match Os.stat fs1 p with
      | Ok _ => make_file base_dir p fs = (fs1, Ok tt)
      | Raise _ =>
          make_file base_dir p fs
          = (<[p := Regular (default []
                               (default_text base_dir (Pathlib.name p)))]>
               fs1, Ok tt)
          /\ fs1 !! p = None /\ p <> []
      end
  end.
Proof.
  intros Hplain.
  destruct (Os.mkdir_parents (Pathlib.parent p) fs) as [fs1 [[]|x]] eqn:Hmk;
    [|unfold make_file; rewrite io_bind_eq, Hmk; reflexivity].
  destruct (Os.stat fs1 p) as [n|x] eqn:Hstat.
  { unfold make_file. rewrite io_bind_eq, Hmk, io_bind_eq.
    unfold Os.path_exists. rewrite Hstat. reflexivity. }
  assert (Hne : p <> []) by (intros ->; discriminate).
  assert (Hparent : Os.stat fs1 (Pathlib.parent p) = Ok Directory)
    by (apply (mkdir_from_makes _ _ _ _ Hmk)).
  pose proof (stat_plain fs1 p Hplain Hne Hparent) as Hnode.
  rewrite Hstat in Hnode.
  destruct (Os.node_at fs1 p) as [n|] eqn:Hat; [discriminate|].
  assert (Hnone : fs1 !! p = None)
    by (destruct p; [contradiction|exact Hat]).
  split; [|split; assumption].
  unfold make_file. rewrite io_bind_eq, Hmk, io_bind_eq.
  unfold Os.path_exists. rewrite Hstat, io_bind_eq.
  unfold Os.touch. rewrite Hstat.
  unfold Os.create_or_truncate at 1. rewrite Hstat.
  unfold Pathlib.parent in Hparent. rewrite Hparent. cbn [default].
  destruct (default_text base_dir (Pathlib.name p)) as [text|];
    [|reflexivity].
  unfold Os.write_text, Os.create_or_truncate.
  assert (Hsub : fs1 ⊆ <[p := Regular []]> fs1)
    by (apply insert_subseteq; exact Hnone).
  assert (Hparent2 : Os.stat (<[p := Regular []]> fs1) (Pathlib.parent p)
                     = Ok Directory)
    by (apply (stat_from_mono _ _ _ _ _ Hsub Hparent)).
  rewrite (stat_plain _ p Hplain Hne Hparent2), (node_at_insert _ _ _ Hne).
  cbn [default]. rewrite insert_insert_eq. reflexivity.
Qed.

End Files.



(** ** Running the entries again *)

Section Runs.

Implicit Types (fs big : FS) (base_dir : path) (e : entry).

Lemma mkdir_parents_grows fs fs' (p : path) (r : result unit) :
  Os.mkdir_parents p fs = (fs', r) -> fs ⊆ fs'.
Proof. apply mkdir_from_grows. Qed.



Lemma run_entry_grows base_dir fs e :
  plain_entry base_dir e = true -> fs ⊆ (run_entry base_dir fs e).1.
Proof.
  destruct e as [p k]. unfold plain_entry, run_entry. cbn [fst snd].
  destruct k; intros Hplain.
  - unfold make_dir.
    destruct (Os.mkdir_parents _ fs) as [fs' r] eqn:Hmk.
    apply mkdir_parents_grows in Hmk. destruct r; exact Hmk.
  - pose proof (make_file_cases base_dir (Pathlib.truediv base_dir p) fs
                  Hplain) as Hcases.
    destruct (Os.mkdir_parents _ fs) as [fs1 r] eqn:Hmk.
    apply mkdir_parents_grows in Hmk. destruct r as [[]|x].
    + destruct (Os.stat fs1 _) as [n|x].
      * rewrite Hcases. exact Hmk.
      * destruct Hcases as (-> & Hnone & _). cbn [fst].
        etransitivity; [exact Hmk|]. apply insert_subseteq. exact Hnone.
    + rewrite Hcases. exact Hmk.
Qed.


Lemma run_all_grows base_dir (paths : list entry) fs :
  forallb (plain_entry base_dir) paths = true ->
  fs ⊆ (run_all base_dir fs paths).1.
Proof.
  revert fs. induction paths as [|e rest IH]; intros fs Hplain;
    [reflexivity|].
  cbn [forallb] in Hplain. apply andb_true_iff in Hplain as [He Hrest].
  cbn [run_all]. pose proof (run_entry_grows base_dir fs e He) as Hgrow.
  destruct (run_entry base_dir fs e) as [fs1 r]. cbn [fst] in Hgrow.
  specialize (IH fs1 Hrest).
  destruct (run_all base_dir fs1 rest) as [fs2 rs]. cbn [fst] in *.
  etransitivity; eassumption.
Qed.


Lemma fold_run_all base_dir (paths : list entry) (w : world) :
  fold_left (create_entry base_dir) paths w
  = World (run_all base_dir (disk w) paths).1
          (fold_left (record base_dir) (run_all base_dir (disk w) paths).2
                     (summary w))
          (printed w ++ (run_all base_dir (disk w) paths).2).
Proof.
  revert w. induction paths as [|e rest IH]; intros w.
  - cbn [fold_left run_all fst snd]. rewrite app_nil_r. destruct w.
    reflexivity.
  - cbn [fold_left run_all]. rewrite IH, create_entry_run.
    cbn [disk summary printed].
    destruct (run_entry base_dir (disk w) e) as [fs1 r]. cbn [fst snd].
    destruct (run_all base_dir fs1 rest) as [fs2 rs]. cbn [fst snd].
    rewrite <- app_assoc. reflexivity.
Qed.

End Runs.

(** X15: for entries whose files have no [..] in their path, a run only
    adds to the disk: every directory and file that was there before is
    still there afterwards, with the content it had. *)
Theorem create_structure_only_adds (cwd : list (list N))
    (fs : gmap (list (list N)) node) (paths : list entry)
    (base_dir : option (list (list N))) :
  forallb (plain_entry (default cwd base_dir)) paths = true ->
  fs ⊆ disk (create_structure cwd fs paths base_dir).
Proof.
  intros Hplain. unfold create_structure. rewrite fold_run_all.
  cbn [disk]. apply run_all_grows. exact Hplain.
Qed.

Lemma create_structure_only_adds_witness :
  sample_disk
  ⊆ disk (create_structure [] sample_disk
            [(py "README.md", file); (py "docs/index.md", file)]
            (Some [py "proj"])).
Proof.
  apply create_structure_only_adds. vm_compute. reflexivity.
Defined.



(** * Writing and reading back *)

Ltac arith := zify; Z.to_euclidean_division_equations; lia.

Lemma decode_encode_char (c : N) (rest : list N) :
  is_scalar c = true ->
  Utf8.decode_N (encode_char c ++ rest) = cons c <$> Utf8.decode_N rest.
Proof.
  unfold is_scalar, Utf8.surrogate. intros H.
  apply andb_true_iff in H as [Hmax Hsur]. apply N.ltb_lt in Hmax.
  apply negb_true_iff, andb_false_iff in Hsur.
  rewrite N.leb_gt, N.leb_gt in Hsur.
  unfold encode_char.
  destruct (N.ltb_spec c 0x80) as [H1|H1].
  { cbn [app Utf8.decode_N]. rewrite (proj2 (N.ltb_lt _ _) H1). reflexivity. }
  destruct (N.ltb_spec c 0x800) as [H2|H2].
  { cbn [app Utf8.decode_N].
    rewrite (proj2 (N.ltb_ge (0xC0 + c / 64) 0x80)) by arith.
    rewrite (proj2 (N.ltb_ge (0xC0 + c / 64) 0xC2)) by arith.
    rewrite (proj2 (N.ltb_lt (0xC0 + c / 64) 0xE0)) by arith.
    unfold Utf8.cont, Utf8.low6.
    rewrite (proj2 (N.leb_le 0x80 (0x80 + c mod 64))) by arith.
    rewrite (proj2 (N.leb_le (0x80 + c mod 64) 0xBF)) by arith.
    cbn [andb]. do 2 f_equal. arith. }
  destruct (N.ltb_spec c 0x10000) as [H3|H3].
  { cbn [app Utf8.decode_N].
    rewrite (proj2 (N.ltb_ge (0xE0 + c / 4096) 0x80)) by arith.
    rewrite (proj2 (N.ltb_ge (0xE0 + c / 4096) 0xC2)) by arith.
    rewrite (proj2 (N.ltb_ge (0xE0 + c / 4096) 0xE0)) by arith.
    rewrite (proj2 (N.ltb_lt (0xE0 + c / 4096) 0xF0)) by arith.
    unfold Utf8.cont, Utf8.low6, Utf8.surrogate.
    rewrite (proj2 (N.leb_le 0x80 (0x80 + (c / 64) mod 64))) by arith.
    rewrite (proj2 (N.leb_le (0x80 + (c / 64) mod 64) 0xBF)) by arith.
    rewrite (proj2 (N.leb_le 0x80 (0x80 + c mod 64))) by arith.
    rewrite (proj2 (N.leb_le (0x80 + c mod 64) 0xBF)) by arith.
    replace ((0xE0 + c / 4096 - 0xE0) * 4096
             + (0x80 + (c / 64) mod 64 - 0x80) * 64
             + (0x80 + c mod 64 - 0x80)) with c by arith.
    rewrite (proj2 (N.leb_le 0x800 c)) by arith.
    destruct Hsur as [Hs|Hs].
    - rewrite (proj2 (N.leb_gt 0xD800 c)) by arith. reflexivity.
    - rewrite (proj2 (N.leb_gt c 0xDFFF)) by arith.
      rewrite andb_false_r. reflexivity. }
  cbn [app Utf8.decode_N].
  rewrite (proj2 (N.ltb_ge (0xF0 + c / 262144) 0x80)) by arith.
  rewrite (proj2 (N.ltb_ge (0xF0 + c / 262144) 0xC2)) by arith.
  rewrite (proj2 (N.ltb_ge (0xF0 + c / 262144) 0xE0)) by arith.
  rewrite (proj2 (N.ltb_ge (0xF0 + c / 262144) 0xF0)) by arith.
  rewrite (proj2 (N.ltb_lt (0xF0 + c / 262144) 0xF5)) by arith.
  unfold Utf8.cont, Utf8.low6.
  rewrite (proj2 (N.leb_le 0x80 (0x80 + (c / 4096) mod 64))) by arith.
  rewrite (proj2 (N.leb_le (0x80 + (c / 4096) mod 64) 0xBF)) by arith.
  rewrite (proj2 (N.leb_le 0x80 (0x80 + (c / 64) mod 64))) by arith.
  rewrite (proj2 (N.leb_le (0x80 + (c / 64) mod 64) 0xBF)) by arith.
  rewrite (proj2 (N.leb_le 0x80 (0x80 + c mod 64))) by arith.
  rewrite (proj2 (N.leb_le (0x80 + c mod 64) 0xBF)) by arith.
  replace ((0xF0 + c / 262144 - 0xF0) * 262144
           + (0x80 + (c / 4096) mod 64 - 0x80) * 4096
           + (0x80 + (c / 64) mod 64 - 0x80) * 64
           + (0x80 + c mod 64 - 0x80)) with c by arith.
  rewrite (proj2 (N.leb_le 0x10000 c)) by arith.
  rewrite (proj2 (N.leb_le c 0x10FFFF)) by arith. reflexivity.
Qed.

Lemma encode_char_bytes (c : N) :
  is_scalar c = true -> Forall (fun b => b <= 255) (encode_char c).
Proof.
  unfold is_scalar. intros H. apply andb_true_iff in H as [Hmax _].
  apply N.ltb_lt in Hmax. unfold encode_char.
  destruct (N.ltb_spec c 0x80); [repeat constructor; arith|].
  destruct (N.ltb_spec c 0x800); [repeat constructor; arith|].
  destruct (N.ltb_spec c 0x10000); repeat constructor; arith.
Qed.

Lemma byte_of_small (b : N) :
  b <= 255 -> Byte.to_N (default Byte.x00 (Byte.of_N b)) = b.
Proof.
  intros Hb. destruct (Byte.of_N b) as [y|] eqn:E.
  - apply Byte.to_of_N. exact E.
  - apply Byte.of_N_None_iff in E. lia.
Qed.

Lemma encode_bytes (text : str) :
  forallb is_scalar text = true ->
  map Byte.to_N (utf8_encode text) = utf8_encode_N text.
Proof.
  intros Hall. unfold utf8_encode. rewrite List.map_map.
  assert (Hsmall : Forall (fun b => b <= 255) (utf8_encode_N text)).
  { unfold utf8_encode_N. induction text as [|c r IH]; [constructor|].
    cbn [forallb] in Hall. apply andb_true_iff in Hall as [Hc Hr].
    cbn [flat_map]. apply Forall_app. split; [|exact (IH Hr)].
    apply encode_char_bytes. exact Hc. }
  induction Hsmall as [|b l Hb _ IH]; [reflexivity|].
  cbn [map]. rewrite (byte_of_small b Hb), IH. reflexivity.
Qed.

(** Text survives the trip to the disk and back: encoding a text that
    holds no surrogate and decoding the bytes gives the text again. *)
Lemma decode_encode (text : str) :
  forallb is_scalar text = true ->
  Utf8.decode (utf8_encode text) = Some text.
Proof.
  intros Hall. unfold Utf8.decode. rewrite (encode_bytes text Hall).
  unfold utf8_encode_N. induction text as [|c r IH]; [reflexivity|].
  cbn [forallb] in Hall. apply andb_true_iff in Hall as [Hc Hr].
  cbn [flat_map]. rewrite (decode_encode_char c _ Hc), (IH Hr). reflexivity.
Qed.

Lemma decode_encode_witness :
  Utf8.decode (utf8_encode (py "├── src/")) = Some (py "├── src/").
Proof. apply decode_encode. vm_compute. reflexivity. Defined.

(** * Properties of main *)

Lemma template_parses :
  parse_structure_file (Content (utf8_encode (py template)))
  = Ok template_entries.
Proof. vm_compute. reflexivity. Qed.



(** X18: a dry run, a declined confirmation and every run that ends with
    exit code 1 without [--init] leave the disk exactly as it was. *)
Theorem build_touches_disk_only_when_confirmed (a : args) (response : str)
    (cwd : list (list N)) (fs : gmap (list (list N)) node) :
  init a = false ->
  dry_run a = true \/ is_yes response = false
  \/ exit_code (main a response cwd fs) = 1%Z ->
  left_disk (main a response cwd fs) = fs.
Proof.
  intros Hinit. unfold main. rewrite Hinit.
  destruct (isfile cwd fs (structure_file a)); cbn [negb]; [|reflexivity].
  destruct (parse_structure_file _) as [[|e0 paths]|e];
    [reflexivity| |reflexivity].
  destruct (dry_run a); [reflexivity|].
  destruct (is_yes response); [|reflexivity]. cbn [negb].
  intros [H | [H | H]]; discriminate.
Qed.

Lemma build_touches_disk_only_when_confirmed_witness :
  left_disk (main (Args (py "s.txt") None false false) (py "n") [py "home"]
               (<[ [py "home"; py "s.txt"] := Regular (py "a/") ]> home_disk))
  = <[ [py "home"; py "s.txt"] := Regular (py "a/") ]> home_disk.
Proof.
  apply build_touches_disk_only_when_confirmed; [reflexivity|].
  right. left. vm_compute. reflexivity.
Defined.

(** ** The template *)

Lemma truediv_structure_txt (cwd : list (list N)) :
  Pathlib.truediv cwd (py "structure.txt") = cwd ++ [py "structure.txt"].
Proof.
  unfold Pathlib.truediv.
  assert (Hstart : Py.startswith (py "structure.txt") [ord "/"] = false)
    by (vm_compute; reflexivity).
  assert (Hparts : Pathlib.parts (py "structure.txt") = [py "structure.txt"])
    by (vm_compute; reflexivity).
  rewrite Hstart, Hparts. reflexivity.
Qed.

Lemma plain_structure_txt (cwd : list (list N)) :
  plain_path cwd = true -> plain_path (cwd ++ [py "structure.txt"]) = true.
Proof.
  intros H. unfold plain_path in *. rewrite forallb_app, H. reflexivity.
Qed.

Lemma write_new (fs : gmap (list (list N)) node) (p : list (list N))
    (text : str) (e : exn) :
  plain_path p = true -> p <> [] ->
  Os.stat fs (Pathlib.parent p) = Ok Directory ->
  Os.stat fs p = Raise e ->
  Os.write_text p text fs = (<[p := Regular text]> fs, Ok tt)
  /\ Os.stat (<[p := Regular text]> fs) p = Ok (Regular text).
Proof.
  intros Hplain Hne Hparent Hstat.
  pose proof (stat_plain fs p Hplain Hne Hparent) as Hnode.
  rewrite Hstat in Hnode.
  destruct (Os.node_at fs p) as [n|] eqn:Hat; [discriminate|].
  assert (Hnone : fs !! p = None) by (destruct p; [contradiction|exact Hat]).
  split.
  - unfold Os.write_text, Os.create_or_truncate. rewrite Hstat.
    unfold Pathlib.parent in Hparent. rewrite Hparent. reflexivity.
  - rewrite stat_plain; [rewrite node_at_insert; [reflexivity|exact Hne]
                        |exact Hplain|exact Hne|].
    apply (stat_from_mono fs); [apply insert_subseteq; exact Hnone|].
    exact Hparent.
Qed.

(** X19: [--init] does not overwrite a [structure.txt] that is there
    unless the answer is [y] or [Y]: with any other answer the run prints
    that it was cancelled, leaves the disk as it was and ends with exit
    code 0. *)
Theorem init_keeps_existing_file (a : args) (response : str)
    (cwd : list (list N)) (fs : gmap (list (list N)) node) (n : node) :
  init a = true ->
  Os.stat fs (cwd ++ [py "structure.txt"]) = Ok n ->
  is_yes response = false ->
  main a response cwd fs = Outcome 0 fs [Cancelled].
Proof.
  intros Hinit Hstat Hno. unfold main.
  rewrite Hinit, truediv_structure_txt. unfold Os.path_exists. cbn [snd].
  rewrite Hstat, Hno. reflexivity.
Qed.

Lemma init_keeps_existing_file_witness :
  main (Args [] None false true) (py "no") [py "home"]
    (<[ [py "home"; py "structure.txt"] := Regular (py "mine/") ]> home_disk)
  = Outcome 0
      (<[ [py "home"; py "structure.txt"] := Regular (py "mine/") ]>
         home_disk)
      [Cancelled].
Proof.
  apply (init_keeps_existing_file _ _ _ _ (Regular (py "mine/")));
    vm_compute; reflexivity.
Defined.

(** X20: in a directory without [structure.txt], [--init] writes the
    template and ends with exit code 0, and a dry run of the tool on that
    file then finds the eighteen entries of [template_entries], in which
    [tests], [docs], [config] and [.gitignore] lie under
    [myproject/src/utils] and not under [myproject]; the dry run leaves
    the disk alone. *)
Theorem init_then_dry_run (a : args) (r1 r2 : str) (cwd : list (list N))
    (fs : gmap (list (list N)) node) (e : exn) :
  init a = true ->
  plain_path cwd = true ->
  Os.stat fs cwd = Ok Directory ->
  Os.stat fs (cwd ++ [py "structure.txt"]) = Raise e ->
  let written :=
    <[cwd ++ [py "structure.txt"] := Regular (py template)]> fs in
  main a r1 cwd fs
  = Outcome 0 written [TemplateCreated (cwd ++ [py "structure.txt"])]
  /\ main (Args (py "structure.txt") None true false) r2 cwd written
     = Outcome 0 written
         [Parsing (py "structure.txt"); found template_entries;
          DryRunComplete].
Proof.
  intros Hinit Hplain Hcwd Hstat written.
  assert (Hne : cwd ++ [py "structure.txt"] <> [])
    by (intros H; apply app_eq_nil in H as [_ H]; discriminate).
  assert (Hparent : Os.stat fs (Pathlib.parent (cwd ++ [py "structure.txt"]))
                    = Ok Directory)
    by (unfold Pathlib.parent; rewrite removelast_last; exact Hcwd).
  destruct (write_new fs _ (py template) e (plain_structure_txt cwd Hplain)
              Hne Hparent Hstat) as [Hwrite Hthere].
  fold written in Hwrite, Hthere. split.
  - unfold main. rewrite Hinit, truediv_structure_txt.
    unfold Os.path_exists. cbn [snd]. rewrite Hstat.
    unfold create_template. rewrite Hwrite. reflexivity.
  - unfold main. cbn [init structure_file dry_run].
    unfold isfile, open_file. rewrite truediv_structure_txt, Hthere.
    cbn [negb]. rewrite template_parses. reflexivity.
Qed.

Lemma init_then_dry_run_witness :
  main (Args [] None false true) [] [py "home"] home_disk
  = Outcome 0
      (<[ [py "home"; py "structure.txt"] := Regular (py template) ]>
         home_disk)
      [TemplateCreated [py "home"; py "structure.txt"]].
Proof.
  refine (proj1 (init_then_dry_run (Args [] None false true) [] []
                   [py "home"] home_disk FileNotFoundError _ _ _ _));
    vm_compute; reflexivity.
Defined.
